(** * Orders, payments and discounts: a shallow embedding of the SOLID/GRASP
      demonstration scripts

    The repository holds three independent JavaScript pipelines:

    - [Simple]    : index01.js and its open/closed extension (Order,
                    OrderValidator, StrictOrderValidator, OrderRepository,
                    DatabaseOrderRepository, OrderService);
    - [Payments]  : Payment, CreditCardPayment, PixPayment, PaymentProcessor;
    - [Aggregate] : index03.js (Product, OrderItem, Order, OrderValidator,
                    DiscountCalculator, OrderService).

    JavaScript numbers are IEEE-754 binary64 values, so they are embedded as
    Rocq's primitive floats: [<=?], [<?], [+], [*] and [-] below are the
    operators the scripts apply, NaN included.  A method that may mutate its
    receiver or throw is a function from the object before the call to the
    completion of the call together with the object after it.  Payment
    objects, which a processor and its caller share, live in a heap and are
    handled by reference. *)

From Stdlib Require Import Floats String List ZArith Bool Lia Permutation.
Import ListNotations.

Set Warnings "-inexact-float".

Open Scope string_scope.
Open Scope float_scope.

(** ** JavaScript values and completions *)

(** How a call ends: normally with a value, or with a thrown [Error] that
    carries its message. *)
Inductive completion (A : Type) : Type :=
| Normal (value : A)
| Throw (message : string).
Arguments Normal {A} value.
Arguments Throw {A} message.

(** A computation over a mutable object (or store) of type [S]. *)
Definition M (S A : Type) : Type := S -> completion A * S.

Definition ret {S A : Type} (a : A) : M S A := fun s => (Normal a, s).

Definition throw {S A : Type} (message : string) : M S A :=
  fun s => (Throw message, s).

Definition bind {S A B : Type} (c : M S A) (k : A -> M S B) : M S B :=
  fun s =>
    match c s with
    | (Normal a, s') => k a s'
    | (Throw message, s') => (Throw message, s')
    end.

Definition modify {S : Type} (f : S -> S) : M S unit :=
  fun s => (Normal tt, f s).

Notation "x <- c ;; k" := (bind c (fun x => k))
  (at level 61, c at next level, right associativity).
Notation "c ;;; k" := (bind c (fun _ => k))
  (at level 61, right associativity).

(** The status literals ['pending'], ['processing'] and ['completed']. *)
Inductive Status : Type := pending | processing | completed.

(** An identifier or a customer name as a caller may pass it: a string, or
    one of the two absent values, which JavaScript keeps apart. *)
Inductive field : Type :=
| undefined
| null
| Str (s : string).

(** [!v] is false exactly for a non-empty string. *)
Definition truthy (v : field) : bool :=
  match v with
  | Str (String _ _) => true
  | Str EmptyString => false
  | undefined => false
  | null => false
  end.

(** [a === b] on such values: [undefined] and [null] equal only themselves. *)
Definition strict_equal (a b : field) : bool :=
  match a, b with
  | Str x, Str y => String.eqb x y
  | undefined, undefined => true
  | null, null => true
  | _, _ => false
  end.

(** [`${v}`] in a template literal. *)
Definition template (v : field) : string :=
  match v with
  | Str s => s
  | undefined => "undefined"
  | null => "null"
  end.

(** ** index01.js and its extension with the strict validator and the
       logging repository *)
Module Simple.

(** The [items] argument: any value, an array of item names when it is one. *)
Inductive ItemsValue : Type :=
| NotAnArray
| ArrayOf (names : list string).

Record Order : Type := mkOrder {
  id : field;
  customerName : field;
  items : ItemsValue;
  total : float;
  status : Status
}.

(** [new Order(id, customerName, items, total)] *)
Definition new_Order (id customerName : field) (items : ItemsValue)
    (total : float) : Order :=
  mkOrder id customerName items total pending.

Record OrderInfo : Type := mkOrderInfo {
  info_id : field;
  info_customer : field;
  info_items : ItemsValue;
  info_total : float;
  info_status : Status
}.

Definition getOrderInfo (this : Order) : OrderInfo :=
  mkOrderInfo (id this) (customerName this) (items this) (total this)
    (status this).

(** [!Array.isArray(items) || items.length === 0] *)
Definition no_items (v : ItemsValue) : bool :=
  match v with
  | NotAnArray => true
  | ArrayOf names => Nat.eqb (List.length names) 0
  end.

(** An object with a [validate(order)] method.  The method is handed the
    order alone: the validators of the scripts hold no reference to a
    repository or to the console. *)
Record Validator : Type := { validate : M Order bool }.

Definition OrderValidator : Validator :=
  {| validate := fun order =>
       if negb (truthy (id order)) || negb (truthy (customerName order)) then
         throw "Order must have id and customer name" order
       else if no_items (items order) then
         throw "Order must have at least one item" order
       else if total order <=? 0 then
         throw "Order total must be greater than zero" order
       else ret true order |}.

Definition StrictOrderValidator : Validator :=
  {| validate :=
       validate OrderValidator ;;;
       fun order =>
         if 10000 <? total order then
           throw "Order total exceeds maximum allowed value" order
         else ret true order |}.

(** What the scripts share: the array of a repository and the console. *)
Record Store : Type := mkStore {
  orders : list Order;
  console : list string
}.

Definition console_log (line : string) (s : Store) : Store :=
  mkStore (orders s) (console s ++ [line]).

(** An object with [save], [findById] and [findAll]. *)
Record Repository : Type := {
  save : Order -> Store -> Order * Store;
  findById : field -> Store -> option Order;
  findAll : Store -> list Order
}.

Definition OrderRepository : Repository :=
  {| save := fun order s => (order, mkStore (orders s ++ [order]) (console s));
     findById := fun wanted s =>
       List.find (fun o => strict_equal (id o) wanted) (orders s);
     findAll := fun s => orders s |}.

Definition DatabaseOrderRepository : Repository :=
  {| save := fun order s =>
       save OrderRepository order
         (console_log ("[Database] Saving order " ++ template (id order)
                         ++ " to database") s);
     findById := findById OrderRepository;
     findAll := findAll OrderRepository |}.

Record OrderService : Type := mkOrderService {
  validator : Validator;
  repository : Repository
}.

Definition createOrder (this : OrderService) (id customerName : field)
    (items : ItemsValue) (total : float) : M Store Order :=
  fun s =>
    let order := new_Order id customerName items total in
    match validate (validator this) order with
    | (Throw message, _) => (Throw message, s)
    | (Normal _, order') =>
        let (saved, s') := save (repository this) order' s in
        (Normal saved, s')
    end.

Definition getOrder (this : OrderService) (wanted : field) (s : Store)
    : option Order :=
  findById (repository this) wanted s.

Definition getAllOrders (this : OrderService) (s : Store) : list Order :=
  findAll (repository this) s.

End Simple.

(** ** The payment script: Payment, its two subclasses and PaymentProcessor *)
Module Payments.

(** The fields a subclass adds to [Payment]. *)
Inductive Variant : Type :=
| Plain
| CreditCard (cardNumber cardHolder : string)
| Pix (pixKey : string).

Record Payment : Type := mkPayment {
  amount : float;
  method : string;
  status : Status;
  processedAt : option string;
  variant : Variant
}.

(** [new Payment(amount, method)] *)
Definition new_Payment (amount : float) (method : string) : Payment :=
  mkPayment amount method pending None Plain.

(** [new CreditCardPayment(amount, cardNumber, cardHolder)] *)
Definition new_CreditCardPayment (amount : float)
    (cardNumber cardHolder : string) : Payment :=
  mkPayment amount "credit_card" pending None
    (CreditCard cardNumber cardHolder).

(** [new PixPayment(amount, pixKey)] *)
Definition new_PixPayment (amount : float) (pixKey : string) : Payment :=
  mkPayment amount "pix" pending None (Pix pixKey).

(** [Payment.prototype.process]: assigns the status and returns [this]. *)
Definition Payment_process (this : Payment) : Payment :=
  mkPayment (amount this) (method this) processing (processedAt this)
    (variant this).

(** [Payment.prototype.complete]; [now] is what [new Date().toISOString()]
    reads from the clock at the call. *)
Definition Payment_complete (now : string) (this : Payment) : Payment :=
  mkPayment (amount this) (method this) completed (Some now) (variant this).

(** Dispatch on the class of the receiver: both subclasses call [super]. *)
Definition process (this : Payment) : Payment :=
  match variant this with
  | Plain => Payment_process this
  | CreditCard _ _ => Payment_process this
  | Pix _ => Payment_process this
  end.

Definition complete (now : string) (this : Payment) : Payment :=
  match variant this with
  | Plain => Payment_complete now this
  | CreditCard _ _ => Payment_complete now this
  | Pix _ => Payment_complete now this
  end.

(** [s.slice(start)] of ECMAScript: a negative [start] counts from the end,
    and the bounds are clamped to the string. *)
Definition slice (start : Z) (s : string) : string :=
  let len := Z.of_nat (String.length s) in
  let from := if (start <? 0)%Z then Z.max (len + start) 0
              else Z.min start len in
  substring (Z.to_nat from) (Z.to_nat (len - from)) s.

Definition maskCardNumber (cardNumber : string) : string :=
  let last4 := slice (-4) cardNumber in
  "****-****-****-" ++ last4.

(** The object [getPaymentInfo] builds; a key a class does not write is
    absent. *)
Record PaymentInfo : Type := mkPaymentInfo {
  info_amount : float;
  info_method : string;
  info_status : Status;
  info_processedAt : option string;
  info_cardHolder : option string;
  info_cardNumber : option string;
  info_pixKey : option string
}.

Definition Payment_getPaymentInfo (this : Payment) : PaymentInfo :=
  mkPaymentInfo (amount this) (method this) (status this) (processedAt this)
    None None None.

Definition getPaymentInfo (this : Payment) : PaymentInfo :=
  let info := Payment_getPaymentInfo this in
  match variant this with
  | Plain => info
  | CreditCard cardNumber cardHolder =>
      mkPaymentInfo (info_amount info) (info_method info) (info_status info)
        (info_processedAt info) (Some cardHolder)
        (Some (maskCardNumber cardNumber)) (info_pixKey info)
  | Pix pixKey =>
      mkPaymentInfo (info_amount info) (info_method info) (info_status info)
        (info_processedAt info) (info_cardHolder info)
        (info_cardNumber info) (Some pixKey)
  end.

(** A caller's calls on one payment, and the objects they leave behind. *)
Inductive Call : Type :=
| call_process
| call_complete (now : string).

Definition call (c : Call) (this : Payment) : Payment :=
  match c with
  | call_process => process this
  | call_complete now => complete now this
  end.

(** The payment before the first call and after each call. *)
Fixpoint trace (calls : list Call) (this : Payment) : list Payment :=
  match calls with
  | [] => [this]
  | c :: rest => this :: trace rest (call c this)
  end.

(** The calls that assign [processedAt], each with the status it found. *)
Fixpoint stamps (calls : list Call) (this : Payment) : list Status :=
  match calls with
  | [] => []
  | call_process :: rest => stamps rest (call call_process this)
  | call_complete now :: rest =>
      status this :: stamps rest (call (call_complete now) this)
  end.

(** The lifecycle the data model describes. *)
Definition rank (s : Status) : nat :=
  match s with
  | pending => 0
  | processing => 1
  | completed => 2
  end.

(** One step of it: the status stays or moves to its successor. *)
Definition sequential_step (before after : Status) : bool :=
  Nat.eqb (rank after) (rank before) || Nat.eqb (rank after) (S (rank before)).

Fixpoint sequential (statuses : list Status) : bool :=
  match statuses with
  | a :: (b :: _) as rest => sequential_step a b && sequential rest
  | _ => true
  end.

(** Payment objects live in a heap and are handled by reference, the position
    of the object in it: the payment a processor has recorded and the payment
    its caller still holds are one object, and a call on it shows in both. *)
Definition Ref : Type := nat.

(** The state of the script: the payment objects created so far, the
    [payments] array of the processor, and the methods called on payments so
    far, oldest first (kept to tell what happens between two states). *)
Record Store : Type := mkStore {
  heap : list Payment;
  payments : list Ref;
  calls : list (Ref * Call)
}.

(** [new PaymentProcessor()] at the start of the script. *)
Definition new_PaymentProcessor : Store := mkStore [] [] [].

Definition lookup (r : Ref) (s : Store) : option Payment :=
  List.nth_error (heap s) r.

(** The heap with the object at [r] changed in place. *)
Fixpoint replace (r : Ref) (object : Payment) (h : list Payment)
    : list Payment :=
  match h, r with
  | [], _ => []
  | _ :: rest, O => object :: rest
  | first :: rest, S r' => first :: replace r' object rest
  end.

(** [new Payment(...)] and the like: the object is added to the heap and the
    expression evaluates to a reference to it. *)
Definition allocate (object : Payment) (s : Store) : Ref * Store :=
  (List.length (heap s), mkStore (heap s ++ [object]) (payments s) (calls s)).

(** [payment.process()] or [payment.complete()]: the object the reference
    denotes is changed in place and the call returns the reference ([this]);
    on a value that is no object the call is a [TypeError]. *)
Definition invoke (c : Call) (payment : Ref) : M Store Ref :=
  fun s =>
    match lookup payment s with
    | Some object =>
        (Normal payment,
         mkStore (replace payment (call c object) (heap s)) (payments s)
           (calls s ++ [(payment, c)]))
    | None => (Throw "TypeError: payment is not an object", s)
    end.

(** [processPayment(payment)]; [now] is the clock reading inside
    [complete]. *)
Definition processPayment (now : string) (payment : Ref) : M Store Ref :=
  invoke call_process payment ;;;
  invoke (call_complete now) payment ;;;
  modify (fun s => mkStore (heap s) (payments s ++ [payment]) (calls s)) ;;;
  ret payment.

(** [refs.map(p => f(p))] over the objects the references denote. *)
Fixpoint map_payments {A : Type} (f : Payment -> A) (h : list Payment)
    (refs : list Ref) : completion (list A) :=
  match refs with
  | [] => Normal []
  | r :: rest =>
      match List.nth_error h r with
      | Some object =>
          match map_payments f h rest with
          | Normal values => Normal (f object :: values)
          | Throw message => Throw message
          end
      | None => Throw "TypeError: payment is not an object"
      end
  end.

Definition getPaymentHistory (s : Store) : completion (list PaymentInfo) :=
  map_payments getPaymentInfo (heap s) (payments s).

(** [refs.reduce((total, p) => total + p.amount, total)] *)
Fixpoint reduce_amounts (h : list Payment) (refs : list Ref) (total : float)
    : completion float :=
  match refs with
  | [] => Normal total
  | r :: rest =>
      match List.nth_error h r with
      | Some object => reduce_amounts h rest (total + amount object)
      | None => Throw "TypeError: payment is not an object"
      end
  end.

Definition getTotalProcessed (s : Store) : completion float :=
  reduce_amounts (heap s) (payments s) 0.

End Payments.

(** ** index03.js: products, order items, the derived total and the discount *)
Module Aggregate.

Record Product : Type := mkProduct {
  product_id : string;
  name : string;
  price : float
}.

(** [Product.getInfo] copies the three fields. *)
Definition Product_getInfo (this : Product) : Product :=
  mkProduct (product_id this) (name this) (price this).

Record OrderItem : Type := mkOrderItem {
  product : Product;
  quantity : float
}.

Definition getSubtotal (this : OrderItem) : float :=
  price (product this) * quantity this.

Record OrderItemInfo : Type := mkOrderItemInfo {
  info_product : Product;
  info_quantity : float;
  info_subtotal : float
}.

Definition OrderItem_getInfo (this : OrderItem) : OrderItemInfo :=
  mkOrderItemInfo (Product_getInfo (product this)) (quantity this)
    (getSubtotal this).

Record Order : Type := mkOrder {
  id : field;
  customerName : field;
  items : list OrderItem;
  status : Status
}.

(** [new Order(id, customerName)] *)
Definition new_Order (id customerName : field) : Order :=
  mkOrder id customerName [] pending.

(** [addItem] pushes a new item and returns [this]. *)
Definition addItem (product : Product) (quantity : float) (this : Order)
    : Order :=
  let item := mkOrderItem product quantity in
  mkOrder (id this) (customerName this) (items this ++ [item]) (status this).

Definition getTotal (this : Order) : float :=
  List.fold_left (fun total item => total + getSubtotal item) (items this) 0.

Record OrderInfo : Type := mkOrderInfo {
  info_id : field;
  info_customer : field;
  info_items : list OrderItemInfo;
  info_total : float;
  info_status : Status
}.

Definition getInfo (this : Order) : OrderInfo :=
  mkOrderInfo (id this) (customerName this)
    (List.map OrderItem_getInfo (items this)) (getTotal this) (status this).

Record Validator : Type := { validate : M Order bool }.

Definition OrderValidator : Validator :=
  {| validate := fun order =>
       if negb (truthy (id order)) || negb (truthy (customerName order)) then
         throw "Order must have id and customer name" order
       else if Nat.eqb (List.length (items order)) 0 then
         throw "Order must have at least one item" order
       else ret true order |}.

Record Calculator : Type := { calculateDiscount : Order -> float }.

Definition DiscountCalculator : Calculator :=
  {| calculateDiscount := fun order =>
       let total := getTotal order in
       if 500 <? total then total * 0.1
       else if 200 <? total then total * 0.05
       else 0 |}.

Record OrderService : Type := mkOrderService {
  validator : Validator;
  discountCalculator : Calculator
}.

Definition createOrder (this : OrderService) (id customerName : field)
    : Order :=
  new_Order id customerName.

(** The object [finalizeOrder] returns. *)
Record Finalized : Type := mkFinalized {
  result_order : OrderInfo;
  result_discount : float;
  result_total : float;
  result_finalTotal : float
}.

Definition set_status (s : Status) (this : Order) : Order :=
  mkOrder (id this) (customerName this) (items this) s.

Definition finalizeOrder (this : OrderService) : M Order Finalized :=
  validate (validator this) ;;;
  fun order =>
    let discount := calculateDiscount (discountCalculator this) order in
    let total := getTotal order in
    let finalTotal := total - discount in
    (modify (set_status completed) ;;;
     fun order' =>
       ret (mkFinalized (getInfo order') discount total finalTotal) order')
      order.

End Aggregate.

(** ** Vocabulary of the specification *)

(** A call raised. *)
Definition raises {S A : Type} (outcome : completion A * S) : Prop :=
  exists message, fst outcome = Throw message.

(** "Non-empty" and "empty or absent" for an identifier or a customer name. *)
Definition non_empty (v : field) : Prop :=
  exists c rest, v = Str (String c rest).

Definition empty_or_absent (v : field) : Prop :=
  v = undefined \/ v = null \/ v = Str "".

(** "At least one item" and "no item" for the simple variant. *)
Definition at_least_one_item (v : Simple.ItemsValue) : Prop :=
  exists first rest, v = Simple.ArrayOf (first :: rest).

Definition without_items (v : Simple.ItemsValue) : Prop :=
  v = Simple.NotAnArray \/ v = Simple.ArrayOf [].

(** The valid inputs of [createOrder]. *)
Definition valid_input (id customerName : field) (items : Simple.ItemsValue)
    (total : float) : Prop :=
  non_empty id /\ non_empty customerName /\ at_least_one_item items
  /\ (0 <? total) = true.

(** The repositories of the scripts. *)
Definition source_repository (r : Simple.Repository) : Prop :=
  r = Simple.OrderRepository \/ r = Simple.DatabaseOrderRepository.

(** The services of the demonstrations in [main]. *)
Definition basicService : Simple.OrderService :=
  Simple.mkOrderService Simple.OrderValidator Simple.OrderRepository.

Definition extendedService : Simple.OrderService :=
  Simple.mkOrderService Simple.StrictOrderValidator
    Simple.DatabaseOrderRepository.

(** A store that already holds an order ['ORD-001']. *)
Definition store_with_ORD_001 : Simple.Store :=
  Simple.mkStore
    [Simple.new_Order (Str "ORD-001") (Str "Ana Lima")
       (Simple.ArrayOf ["Produto E"]) 15]
    [].

(** The lifecycle of the data model, read on the calls made on a payment:
    every status change is a step to the successor, [processedAt] is assigned
    at most once, and only on entering [completed] from [processing]. *)
Definition lifecycle_respected (p : Payments.Payment)
    (calls : list Payments.Call) : Prop :=
  Payments.sequential (List.map Payments.status (Payments.trace calls p)) = true
  /\ (List.length (Payments.stamps calls p) <= 1)%nat
  /\ List.Forall (fun before => before = processing) (Payments.stamps calls p).

(** The objects a list of references denotes, in order. *)
Definition objects (refs : list Payments.Ref) (h : list Payments.Payment)
    : list Payments.Payment :=
  List.flat_map
    (fun r => match List.nth_error h r with
              | Some object => [object]
              | None => []
              end)
    refs.

(** The payments a processor has recorded, as they are now. *)
Definition recorded (s : Payments.Store) : list Payments.Payment :=
  objects (Payments.payments s) (Payments.heap s).

(** A reference that denotes an object of the heap. *)
Definition denotes_object (s : Payments.Store) (r : Payments.Ref) : Prop :=
  (r < List.length (Payments.heap s))%nat.

(** Every recorded reference denotes an object: so it is of every store the
    methods of the processor produce from a new one. *)
Definition well_formed (s : Payments.Store) : Prop :=
  List.Forall (denotes_object s) (Payments.payments s).

(** The methods called on payments between two states. *)
Definition calls_made (before after : Payments.Store)
    : list (Payments.Ref * Payments.Call) :=
  List.skipn (List.length (Payments.calls before)) (Payments.calls after).

(** The store after a batch of [processPayment] calls, each with the clock
    reading of its [complete]. *)
Definition processAll (batch : list (string * Payments.Ref))
    (s : Payments.Store) : Payments.Store :=
  List.fold_left
    (fun store entry =>
       snd (Payments.processPayment (fst entry) (snd entry) store))
    batch s.

(** Three new PIX payments of 0.10, 0.20 and 0.30 and a new processor. *)
Definition three_pix_store : Payments.Store :=
  Payments.mkStore
    [Payments.new_PixPayment 0.1 "a@email.com";
     Payments.new_PixPayment 0.2 "b@email.com";
     Payments.new_PixPayment 0.3 "c@email.com"]
    [] [].

(** Processing them in the order of creation. *)
Definition three_pix_payments : list (string * Payments.Ref) :=
  [("2024-01-01T10:00:00.000Z", 0%nat);
   ("2024-01-01T10:00:01.000Z", 1%nat);
   ("2024-01-01T10:00:02.000Z", 2%nat)].

(** One new credit card payment and a new processor. *)
Definition credit_card_store : Payments.Store :=
  snd (Payments.allocate
         (Payments.new_CreditCardPayment 250 "1234567890123456" "Joao Silva")
         Payments.new_PaymentProcessor).

(** The service, the products and the first order of [main] in index03.js. *)
Definition integratedService : Aggregate.OrderService :=
  Aggregate.mkOrderService Aggregate.OrderValidator Aggregate.DiscountCalculator.

Definition notebook : Aggregate.Product :=
  Aggregate.mkProduct "PROD-001" "Notebook" 2500.

Definition mouse : Aggregate.Product :=
  Aggregate.mkProduct "PROD-002" "Mouse" 50.

Definition teclado : Aggregate.Product :=
  Aggregate.mkProduct "PROD-003" "Teclado" 150.

Definition order1 : Aggregate.Order :=
  Aggregate.addItem teclado 1
    (Aggregate.addItem mouse 2
       (Aggregate.addItem notebook 1
          (Aggregate.createOrder integratedService (Str "ORD-001")
             (Str "Joao Silva")))).

(** An order of one item, once, at the given price. *)
Definition order_of_price (price : float) : Aggregate.Order :=
  Aggregate.addItem (Aggregate.mkProduct "PROD-100" "Item" price) 1
    (Aggregate.new_Order (Str "ORD-100") (Str "Maria Santos")).

(** An order for one free sample: its total is 0. *)
Definition free_sample_order : Aggregate.Order :=
  Aggregate.addItem (Aggregate.mkProduct "PROD-000" "Amostra" 0) 1
    (Aggregate.new_Order (Str "ORD-005") (Str "Pedro Costa")).

(** The validators of the simple variant. *)
Definition source_validator (v : Simple.Validator) : Prop :=
  v = Simple.OrderValidator \/ v = Simple.StrictOrderValidator.

(** A validator accepted the order. *)
Definition accepted_by (v : Simple.Validator) (order : Simple.Order) : Prop :=
  fst (Simple.validate v order) = Normal true.

(** A payment that went through [complete]: completed and stamped. *)
Definition settled (p : Payments.Payment) : Prop :=
  Payments.status p = completed
  /\ exists stamp, Payments.processedAt p = Some stamp.

(** * Properties *)

(** ** Facts on binary64 comparisons *)

(** Two closed binary64 values differ: [H] equates them, and [c] is the
    second. *)
Ltac floats_differ H c :=
  apply (f_equal (fun x => PrimFloat.eqb x c)) in H;
  vm_compute in H; discriminate H.

Lemma ltb_zero_not_leb (t : float) : (0 <? t) = true -> (t <=? 0) = false.
Proof.
  rewrite FloatAxioms.ltb_spec, FloatAxioms.leb_spec.
  change (Prim2SF 0) with (S754_zero false).
  destruct (Prim2SF t) as [[]|[]| |[] m e]; cbn; congruence.
Qed.

Lemma not_leb_zero (t : float) :
  (t <=? 0) = false -> (0 <? t) = true \/ is_nan t = true.
Proof.
  unfold is_nan.
  rewrite FloatAxioms.ltb_spec, FloatAxioms.leb_spec, FloatAxioms.eqb_spec.
  change (Prim2SF 0) with (S754_zero false).
  destruct (Prim2SF t) as [[]|[]| |[] m e]; cbn; auto; try congruence.
  all: intros _; left; reflexivity.
Qed.

Lemma ltb_ceiling_not_leb (t : float) :
  (10000 <? t) = true -> (t <=? 0) = false.
Proof.
  rewrite FloatAxioms.ltb_spec, FloatAxioms.leb_spec.
  change (Prim2SF 0) with (S754_zero false).
  destruct (Prim2SF t) as [[]|[]| |[] m e]; vm_compute; congruence.
Qed.

(** ** Truthiness against the vocabulary *)

Lemma truthy_non_empty (v : field) : truthy v = true <-> non_empty v.
Proof.
  split.
  - destruct v as [| |[|c rest]]; simpl; try discriminate.
    intros _. exists c, rest. reflexivity.
  - intros (c & rest & ->). reflexivity.
Qed.

Lemma truthy_empty_or_absent (v : field) :
  truthy v = false <-> empty_or_absent v.
Proof.
  unfold empty_or_absent. split.
  - destruct v as [| |[|c rest]]; simpl; auto; discriminate.
  - intros [-> | [-> | ->]]; reflexivity.
Qed.

Lemma no_items_without (v : Simple.ItemsValue) :
  Simple.no_items v = true <-> without_items v.
Proof.
  unfold without_items. split.
  - destruct v as [|[|first rest]]; simpl; auto; discriminate.
  - intros [-> | ->]; reflexivity.
Qed.

Lemma no_items_at_least_one (v : Simple.ItemsValue) :
  Simple.no_items v = false <-> at_least_one_item v.
Proof.
  split.
  - destruct v as [|[|first rest]]; simpl; try discriminate.
    intros _. exists first, rest. reflexivity.
  - intros (first & rest & ->). reflexivity.
Qed.

Lemma strict_equal_refl (v : field) : strict_equal v v = true.
Proof. destruct v as [| |s]; simpl; auto using String.eqb_refl. Qed.

(** ** The validators of the simple variant *)

Section SimpleValidators.
Import Simple.

(** The base validator as a decision list. *)
Lemma OrderValidator_cases (order : Order) :
  validate OrderValidator order =
    if negb (truthy (id order)) || negb (truthy (customerName order)) then
      (Throw "Order must have id and customer name", order)
    else if no_items (items order) then
      (Throw "Order must have at least one item", order)
    else if total order <=? 0 then
      (Throw "Order total must be greater than zero", order)
    else (Normal true, order).
Proof. reflexivity. Qed.

Lemma OrderValidator_accepts (order : Order) :
  fst (validate OrderValidator order) = Normal true <->
  truthy (id order) = true /\ truthy (customerName order) = true
  /\ no_items (items order) = false /\ (total order <=? 0) = false.
Proof.
  rewrite OrderValidator_cases.
  destruct (truthy (id order)), (truthy (customerName order)),
    (no_items (items order)), (total order <=? 0); simpl;
    intuition discriminate.
Qed.

Lemma StrictOrderValidator_cases (order : Order) :
  validate StrictOrderValidator order =
    match validate OrderValidator order with
    | (Throw message, order') => (Throw message, order')
    | (Normal _, order') =>
        if 10000 <? total order' then
          (Throw "Order total exceeds maximum allowed value", order')
        else (Normal true, order')
    end.
Proof. reflexivity. Qed.

Lemma OrderValidator_pure (order : Order) :
  snd (validate OrderValidator order) = order.
Proof.
  rewrite OrderValidator_cases.
  destruct (negb (truthy (id order)) || negb (truthy (customerName order))),
    (no_items (items order)), (total order <=? 0); reflexivity.
Qed.

Lemma OrderValidator_returns_true (order : Order) (b : bool) :
  fst (validate OrderValidator order) = Normal b -> b = true.
Proof.
  rewrite OrderValidator_cases.
  destruct (negb (truthy (id order)) || negb (truthy (customerName order))),
    (no_items (items order)), (total order <=? 0); simpl; congruence.
Qed.

Lemma OrderValidator_outcome (order : Order) :
  validate OrderValidator order = (fst (validate OrderValidator order), order).
Proof.
  rewrite <- (OrderValidator_pure order) at 3.
  destruct (validate OrderValidator order); reflexivity.
Qed.

Lemma StrictOrderValidator_accepts (order : Order) :
  fst (validate StrictOrderValidator order) = Normal true ->
  fst (validate OrderValidator order) = Normal true.
Proof.
  rewrite StrictOrderValidator_cases.
  pose proof (OrderValidator_returns_true order) as Htrue.
  destruct (validate OrderValidator order) as [[b|m] order']; simpl in *.
  - intros _. now rewrite (Htrue b eq_refl).
  - discriminate.
Qed.

(** C6. The base validator of the simple variant raises exactly when the
    identifier is empty or absent, the customer name is empty or absent, the
    order holds no item (the collection is empty, or there is none), or
    [total <= 0]; the first violated rule, in the order identity fields, item
    presence, total positivity, decides the error; otherwise the call returns
    [true]; and the order is never mutated. *)
Theorem OrderValidator_validate_contract : forall order : Order,
  (raises (validate OrderValidator order) <->
     empty_or_absent (id order) \/ empty_or_absent (customerName order)
     \/ without_items (items order) \/ (total order <=? 0) = true)
  /\ (empty_or_absent (id order) \/ empty_or_absent (customerName order) ->
      fst (validate OrderValidator order)
      = Throw "Order must have id and customer name")
  /\ (non_empty (id order) -> non_empty (customerName order) ->
      without_items (items order) ->
      fst (validate OrderValidator order)
      = Throw "Order must have at least one item")
  /\ (non_empty (id order) -> non_empty (customerName order) ->
      at_least_one_item (items order) -> (total order <=? 0) = true ->
      fst (validate OrderValidator order)
      = Throw "Order total must be greater than zero")
  /\ (~ raises (validate OrderValidator order) ->
      fst (validate OrderValidator order) = Normal true)
  /\ snd (validate OrderValidator order) = order.
Proof.
  intro order.
  rewrite <- !truthy_empty_or_absent, <- !truthy_non_empty,
    <- no_items_without, <- no_items_at_least_one.
  unfold raises. rewrite OrderValidator_cases.
  destruct (truthy (id order)), (truthy (customerName order)),
    (no_items (items order)), (total order <=? 0); simpl;
    repeat split; intros;
    try solve [ reflexivity | discriminate | eauto
              | intuition discriminate
              | match goal with H : exists _, _ |- _ =>
                  destruct H; discriminate end
              | match goal with H : ~ _ |- _ =>
                  exfalso; apply H; eauto end ].
Qed.

End SimpleValidators.

Section SimpleStrict.
Import Simple.

(** C7. An order that passes the checks of the base validator and whose total
    is above 10000 is rejected by the strict validator, with the ceiling
    error and unchanged, while the base validator returns [true] on it; the
    strict validator raises every error of the base validator and accepts
    exactly the orders the base validator accepts whose total is not above
    10000. *)
Theorem StrictOrderValidator_ceiling : forall order : Order,
  (fst (validate OrderValidator order) = Normal true ->
   (10000 <? total order) = true ->
   validate StrictOrderValidator order
   = (Throw "Order total exceeds maximum allowed value", order)
   /\ validate OrderValidator order = (Normal true, order))
  /\ (non_empty (id order) -> non_empty (customerName order) ->
      at_least_one_item (items order) -> (10000 <? total order) = true ->
      fst (validate OrderValidator order) = Normal true)
  /\ (forall message,
      fst (validate OrderValidator order) = Throw message ->
      fst (validate StrictOrderValidator order) = Throw message)
  /\ (fst (validate StrictOrderValidator order) = Normal true <->
      fst (validate OrderValidator order) = Normal true
      /\ (10000 <? total order) = false).
Proof.
  intro order.
  pose proof (OrderValidator_pure order) as Hpure.
  pose proof (OrderValidator_accepts order) as Hacc.
  pose proof (OrderValidator_returns_true order) as Htrue.
  pose proof (ltb_ceiling_not_leb (total order)) as Hfloat.
  rewrite !truthy_non_empty, no_items_at_least_one in Hacc.
  rewrite StrictOrderValidator_cases.
  destruct (validate OrderValidator order) as [r order'].
  simpl in Hpure, Hacc, Htrue |- *. subst order'.
  destruct r as [b|m].
  - rewrite (Htrue b eq_refl) in *.
    destruct (10000 <? total order); simpl; repeat split; intros;
      try solve [ reflexivity | discriminate | intuition congruence ].
  - repeat split; simpl; intros;
      try solve [ discriminate | assumption | intuition congruence ].
Qed.

Lemma StrictOrderValidator_ceiling_witness :
  let order := new_Order (Str "ORD-004") (Str "Ana Lima")
                 (ArrayOf ["Produto E"]) 15000 in
  validate StrictOrderValidator order
  = (Throw "Order total exceeds maximum allowed value", order)
  /\ validate OrderValidator order = (Normal true, order).
Proof.
  intro order.
  apply (proj1 (StrictOrderValidator_ceiling order)); reflexivity.
Defined.

End SimpleStrict.

(** ** The order service of the simple variant *)

Lemma find_app_last {A : Type} (f : A -> bool) (l : list A) (x : A) :
  List.find f l = None -> f x = true -> List.find f (l ++ [x]) = Some x.
Proof.
  induction l as [|y l IH]; simpl; intros Hl Hx.
  - now rewrite Hx.
  - destruct (f y); [discriminate | auto].
Qed.

Section SimpleService.
Import Simple.

(** C10. When the configured validator raises on the order built from the
    arguments, [createOrder] raises the same error and leaves the store as it
    was: nothing is saved, so [findAll] returns exactly the orders stored
    before the call. *)
Theorem createOrder_rejected_store_unchanged :
  forall (service : OrderService) (id customerName : field)
         (items : ItemsValue) (total : float) (s : Store) (message : string),
  fst (validate (validator service) (new_Order id customerName items total))
  = Throw message ->
  createOrder service id customerName items total s = (Throw message, s)
  /\ getAllOrders service
       (snd (createOrder service id customerName items total s))
     = getAllOrders service s.
Proof.
  intros service id0 name0 items0 total0 s message H.
  assert (E : createOrder service id0 name0 items0 total0 s
              = (Throw message, s)).
  { unfold createOrder.
    destruct (validate (validator service)
                (new_Order id0 name0 items0 total0)) as [[b|m] order'];
      simpl in H; [discriminate | congruence]. }
  rewrite E. split; reflexivity.
Qed.

Lemma createOrder_rejected_store_unchanged_witness :
  createOrder extendedService (Str "ORD-004") (Str "Ana Lima")
    (ArrayOf ["Produto E"]) 15000 store_with_ORD_001
  = (Throw "Order total exceeds maximum allowed value", store_with_ORD_001)
  /\ getAllOrders extendedService
       (snd (createOrder extendedService (Str "ORD-004") (Str "Ana Lima")
               (ArrayOf ["Produto E"]) 15000 store_with_ORD_001))
     = getAllOrders extendedService store_with_ORD_001.
Proof.
  apply (createOrder_rejected_store_unchanged extendedService
           (Str "ORD-004") (Str "Ana Lima") (ArrayOf ["Produto E"]) 15000
           store_with_ORD_001).
  reflexivity.
Defined.

(** C5, as stated, fails: the repository does not keep identifiers unique,
    and [findById] returns the first order stored under an identifier.  A
    second order created under ['ORD-001'] is saved, yet [getOrder] answers
    with the older one. *)
Lemma createOrder_roundtrip_fails_on_duplicate_id :
  ~ (forall (id customerName : field) (items : ItemsValue) (total : float)
            (s : Store),
       valid_input id customerName items total ->
       exists saved s',
         createOrder basicService id customerName items total s
         = (Normal saved, s')
         /\ saved = new_Order id customerName items total
         /\ getOrder basicService id s' = Some saved).
Proof.
  intro claim.
  destruct (claim (Str "ORD-001") (Str "Joao Silva")
              (ArrayOf ["Produto A"; "Produto B"]) 150 store_with_ORD_001)
    as (saved & s' & Hcreate & Hsaved & Hget).
  - repeat split; try (do 2 eexists; reflexivity).
  - vm_compute in Hcreate. injection Hcreate as <- <-.
    vm_compute in Hget. discriminate Hget.
Qed.

(** C5, amended. For every valid input and every store in which no order is
    filed under the identifier yet, [createOrder] with the base validator and
    a repository of the scripts succeeds, returns the saved order, in status
    [pending] and with exactly the given field values, appends it to the
    repository, and a subsequent [getOrder] with that identifier returns that
    same order. *)
Theorem createOrder_roundtrip :
  forall (repo : Repository) (id customerName : field) (items : ItemsValue)
         (total : float) (s : Store),
  source_repository repo ->
  valid_input id customerName items total ->
  getOrder (mkOrderService OrderValidator repo) id s = None ->
  let service := mkOrderService OrderValidator repo in
  let saved := mkOrder id customerName items total pending in
  exists s',
    createOrder service id customerName items total s = (Normal saved, s')
    /\ getOrder service id s' = Some saved
    /\ getAllOrders service s' = (getAllOrders service s ++ [saved])%list.
Proof.
  intros repo id0 name0 items0 total0 s Hrepo (Hid & Hname & Hitems & Hpos)
    Hfresh service saved.
  assert (Hok : validate OrderValidator (new_Order id0 name0 items0 total0)
                = (Normal true, new_Order id0 name0 items0 total0)).
  { rewrite OrderValidator_outcome. f_equal.
    apply OrderValidator_accepts. simpl.
    rewrite !truthy_non_empty, no_items_at_least_one.
    auto using ltb_zero_not_leb. }
  unfold service, createOrder, getOrder, getAllOrders in *. simpl validator.
  rewrite Hok. simpl repository in *.
  destruct Hrepo as [-> | ->]; simpl in *; eexists;
    (split; [reflexivity|]); simpl; split; try reflexivity;
    apply find_app_last; auto; apply strict_equal_refl.
Qed.

Lemma createOrder_roundtrip_witness :
  let service := mkOrderService OrderValidator DatabaseOrderRepository in
  let saved := mkOrder (Str "ORD-002") (Str "Maria Santos")
                 (ArrayOf ["Produto C"]) 75.5 pending in
  exists s',
    createOrder service (Str "ORD-002") (Str "Maria Santos")
      (ArrayOf ["Produto C"]) 75.5 store_with_ORD_001 = (Normal saved, s')
    /\ getOrder service (Str "ORD-002") s' = Some saved
    /\ getAllOrders service s'
       = (getAllOrders service store_with_ORD_001 ++ [saved])%list.
Proof.
  apply (createOrder_roundtrip DatabaseOrderRepository (Str "ORD-002")
           (Str "Maria Santos") (ArrayOf ["Produto C"]) 75.5
           store_with_ORD_001).
  - right. reflexivity.
  - repeat split; try (do 2 eexists; reflexivity).
  - reflexivity.
Defined.

End SimpleService.

(** ** The payment store *)

Lemma skipn_length_app {A : Type} (l l' : list A) :
  List.skipn (List.length l) (l ++ l') = l'.
Proof. induction l as [|x l IH]; simpl; [reflexivity | exact IH]. Qed.

Lemma replace_length (r : nat) (p : Payments.Payment)
    (h : list Payments.Payment) :
  List.length (Payments.replace r p h) = List.length h.
Proof.
  revert r. induction h as [|q h IH]; intros [|r]; simpl; auto.
Qed.

Lemma nth_error_replace_same (r : nat) (p : Payments.Payment)
    (h : list Payments.Payment) :
  (r < List.length h)%nat ->
  List.nth_error (Payments.replace r p h) r = Some p.
Proof.
  revert r. induction h as [|q h IH]; intros [|r]; simpl; intro Hr;
    try lia; [reflexivity | apply IH; lia].
Qed.

Lemma nth_error_replace_other (r r' : nat) (p : Payments.Payment)
    (h : list Payments.Payment) :
  r <> r' ->
  List.nth_error (Payments.replace r p h) r' = List.nth_error h r'.
Proof.
  revert r r'. induction h as [|q h IH]; intros [|r] [|r']; simpl; intro Hne;
    try reflexivity; try congruence.
  apply IH. congruence.
Qed.

Lemma nth_error_replace_cases (r r' : nat) (p q : Payments.Payment)
    (h : list Payments.Payment) :
  List.nth_error (Payments.replace r p h) r' = Some q ->
  (r' = r /\ q = p) \/ (r' <> r /\ List.nth_error h r' = Some q).
Proof.
  intro H. destruct (Nat.eq_dec r r') as [<- | Hne].
  - left. split; [reflexivity|].
    assert (Hr : (r < List.length h)%nat).
    { rewrite <- (replace_length r p h). apply List.nth_error_Some.
      congruence. }
    rewrite (nth_error_replace_same r p h Hr) in H. congruence.
  - right. rewrite nth_error_replace_other in H by exact Hne.
    split; [congruence | exact H].
Qed.

Lemma replace_replace (r : nat) (a b : Payments.Payment)
    (h : list Payments.Payment) :
  Payments.replace r b (Payments.replace r a h) = Payments.replace r b h.
Proof.
  revert r. induction h as [|q h IH]; intros [|r]; simpl; try reflexivity.
  now rewrite IH.
Qed.

(** ** The payment lifecycle *)

Section PaymentLifecycle.
Import Payments.

Lemma process_fields (p : Payment) :
  status (process p) = processing /\ processedAt (process p) = processedAt p
  /\ amount (process p) = amount p /\ variant (process p) = variant p.
Proof. destruct p as [a m s t []]; repeat split. Qed.

Lemma complete_fields (now : string) (p : Payment) :
  status (complete now p) = completed
  /\ processedAt (complete now p) = Some now
  /\ amount (complete now p) = amount p
  /\ variant (complete now p) = variant p.
Proof. destruct p as [a m s t []]; repeat split. Qed.

Lemma lookup_denotes (r : Ref) (s : Store) (p : Payment) :
  lookup r s = Some p -> denotes_object s r.
Proof.
  unfold lookup, denotes_object. intro H. apply List.nth_error_Some.
  congruence.
Qed.

Lemma invoke_object (c : Call) (r : Ref) (s : Store) (p : Payment) :
  lookup r s = Some p ->
  invoke c r s
  = (Normal r,
     mkStore (replace r (call c p) (heap s)) (payments s)
       (calls s ++ [(r, c)])).
Proof. intro H. unfold invoke. now rewrite H. Qed.

Lemma processed_amount (now : string) (p : Payment) :
  amount (complete now (process p)) = amount p.
Proof. destruct p as [a m s t []]; reflexivity. Qed.

(** [processPayment] on a payment object, in one step. *)
Lemma processPayment_object (now : string) (r : Ref) (s : Store)
    (p : Payment) :
  lookup r s = Some p ->
  processPayment now r s
  = (Normal r,
     mkStore (replace r (complete now (process p)) (heap s))
       (payments s ++ [r])
       (calls s ++ [(r, call_process); (r, call_complete now)])).
Proof.
  intro H. pose proof (lookup_denotes r s p H) as Hr.
  unfold processPayment, bind. rewrite (invoke_object call_process r s p H).
  rewrite (invoke_object (call_complete now) r _ (process p))
    by (apply nth_error_replace_same; exact Hr).
  unfold modify, ret. simpl.
  now rewrite replace_replace, <- List.app_assoc.
Qed.

(** [processPayment] on a value that is no object raises and changes
    nothing. *)
Lemma processPayment_no_object (now : string) (r : Ref) (s : Store) :
  lookup r s = None ->
  processPayment now r s = (Throw "TypeError: payment is not an object", s).
Proof. intro H. unfold processPayment, bind, invoke. now rewrite H. Qed.

(** C4, as stated, fails: [process] and [complete] assign the status without
    looking at it.  On a new payment a lone [complete] jumps from [pending] to
    [completed]. *)
Lemma lifecycle_not_enforced :
  ~ (forall (p : Payment) (calls : list Call),
       status p = pending -> lifecycle_respected p calls).
Proof.
  intro claim.
  destruct (claim (new_Payment 250 "credit_card")
              [call_complete "2024-01-01T10:00:00.000Z"] eq_refl)
    as (Hsequential & _).
  vm_compute in Hsequential. discriminate Hsequential.
Qed.

(** The same calls can also move the status backward and stamp twice. *)
Lemma lifecycle_backward_and_restamped :
  let calls := [call_process; call_complete "t1"; call_process;
                call_complete "t2"] in
  let p := new_PixPayment 100 "joao.silva@email.com" in
  List.map status (trace calls p)
  = [pending; processing; completed; processing; completed]
  /\ List.map processedAt (trace calls p)
     = [None; None; Some "t1"; Some "t1"; Some "t2"]
  /\ stamps calls p = [processing; processing].
Proof. repeat split. Qed.

(** C4, amended. [process] sets the status to [processing] and [complete] sets
    it to [completed] and stamps [processedAt], whatever the status was.  For
    a pending payment, [processPayment] calls [process] and then [complete]
    on it and nothing else: the status goes [pending], [processing],
    [completed] with no skip and no step back, and [processedAt] is assigned
    exactly once, on entering [completed]; the processor records the
    payment, which is left completed and stamped. *)
Theorem processPayment_lifecycle :
  (forall (p : Payment) (now : string),
     status (process p) = processing
     /\ processedAt (process p) = processedAt p
     /\ status (complete now p) = completed
     /\ processedAt (complete now p) = Some now)
  /\ (forall (now : string) (r : Ref) (s : Store) (p : Payment),
        lookup r s = Some p ->
        status p = pending ->
        let s' := snd (processPayment now r s) in
        let made := List.map snd (calls_made s s') in
        fst (processPayment now r s) = Normal r
        /\ calls_made s s' = [(r, call_process); (r, call_complete now)]
        /\ List.map status (trace made p) = [pending; processing; completed]
        /\ List.map processedAt (trace made p)
           = [processedAt p; processedAt p; Some now]
        /\ stamps made p = [processing]
        /\ lifecycle_respected p made
        /\ lookup r s' = Some (List.last (trace made p) p)
        /\ (exists p',
              lookup r s' = Some p'
              /\ status p' = completed /\ processedAt p' = Some now)
        /\ payments s' = (payments s ++ [r])%list).
Proof.
  split.
  - intros p now.
    destruct (process_fields p) as (Hs & Hat & _).
    destruct (complete_fields now p) as (Hs' & Hat' & _). auto.
  - intros now r s p Hp Hpending s' made.
    pose proof (lookup_denotes r s p Hp) as Hr.
    destruct (process_fields p) as (Hs & Hat & _).
    destruct (complete_fields now (process p)) as (Hs' & Hat' & _).
    assert (Hmade : calls_made s s'
                    = [(r, call_process); (r, call_complete now)]).
    { unfold s', calls_made. rewrite (processPayment_object now r s p Hp).
      simpl. apply skipn_length_app. }
    assert (Hafter : lookup r s' = Some (complete now (process p))).
    { unfold s', lookup. rewrite (processPayment_object now r s p Hp).
      simpl. apply nth_error_replace_same. exact Hr. }
    unfold made. rewrite Hmade. simpl List.map.
    assert (Htrace : List.map status
                       (trace [call_process; call_complete now] p)
                     = [pending; processing; completed]).
    { simpl. now rewrite Hpending, Hs, Hs'. }
    assert (Hstamps : stamps [call_process; call_complete now] p
                      = [processing]).
    { simpl. now rewrite Hs. }
    split; [now rewrite (processPayment_object now r s p Hp)|].
    split; [reflexivity|]. split; [exact Htrace|].
    split; [simpl; now rewrite Hat, Hat'|]. split; [exact Hstamps|].
    split.
    { unfold lifecycle_respected. rewrite Htrace, Hstamps.
      repeat split; [simpl; lia | repeat constructor]. }
    split; [exact Hafter|]. split; [eauto|].
    unfold s'. now rewrite (processPayment_object now r s p Hp).
Qed.

Lemma processPayment_lifecycle_witness :
  let now := "2024-01-01T10:00:00.000Z" in
  let p := new_CreditCardPayment 250 "1234567890123456" "Joao Silva" in
  let s' := snd (processPayment now 0%nat credit_card_store) in
  let made := List.map snd (calls_made credit_card_store s') in
  fst (processPayment now 0%nat credit_card_store) = Normal 0%nat
  /\ calls_made credit_card_store s'
     = [(0%nat, call_process); (0%nat, call_complete now)]
  /\ List.map status (trace made p) = [pending; processing; completed]
  /\ List.map processedAt (trace made p)
     = [processedAt p; processedAt p; Some now]
  /\ stamps made p = [processing]
  /\ lifecycle_respected p made
  /\ lookup 0%nat s' = Some (List.last (trace made p) p)
  /\ (exists p',
        lookup 0%nat s' = Some p'
        /\ status p' = completed /\ processedAt p' = Some now)
  /\ payments s' = (payments credit_card_store ++ [0%nat])%list.
Proof.
  intros now p.
  apply (proj2 processPayment_lifecycle now 0%nat credit_card_store p).
  - reflexivity.
  - reflexivity.
Defined.

End PaymentLifecycle.

(** ** Card masking *)

Lemma length_append (a b : string) :
  String.length (a ++ b) = (String.length a + String.length b)%nat.
Proof. induction a as [|c a IH]; simpl; [reflexivity | now rewrite IH]. Qed.

Lemma substring_whole (s : string) : substring 0 (String.length s) s = s.
Proof. induction s as [|c s IH]; simpl; [reflexivity | now rewrite IH]. Qed.

Lemma substring_after (a b : string) (m : nat) :
  substring (String.length a) m (a ++ b) = substring 0 m b.
Proof. induction a as [|c a IH]; simpl; [reflexivity | exact IH]. Qed.

(** [slice(-n)] of a string that ends with [n] characters is those. *)
Lemma slice_suffix (hidden shown : string) (n : nat) :
  String.length shown = n -> (0 < n)%nat ->
  Payments.slice (- Z.of_nat n) (hidden ++ shown) = shown.
Proof.
  intros Hlen Hpos. unfold Payments.slice.
  rewrite length_append, Hlen.
  replace (- Z.of_nat n <? 0)%Z with true by (symmetry; apply Z.ltb_lt; lia).
  replace (Z.to_nat
             (Z.max (Z.of_nat (String.length hidden + n) + - Z.of_nat n) 0))
    with (String.length hidden) by lia.
  replace (Z.to_nat
             (Z.of_nat (String.length hidden + n)
              - Z.max (Z.of_nat (String.length hidden + n) + - Z.of_nat n) 0))
    with (String.length shown) by lia.
  rewrite substring_after. apply substring_whole.
Qed.

(** [slice(-n)] of a string of at most [n] characters is the string. *)
Lemma slice_short (s : string) (n : nat) :
  (String.length s <= n)%nat -> Payments.slice (- Z.of_nat n) s = s.
Proof.
  intro Hlen. unfold Payments.slice.
  destruct (- Z.of_nat n <? 0)%Z eqn:Hneg.
  - replace (Z.max (Z.of_nat (String.length s) + - Z.of_nat n) 0) with 0%Z
      by lia.
    rewrite Z.sub_0_r, Nat2Z.id. apply substring_whole.
  - apply Z.ltb_ge in Hneg.
    replace (Z.min (- Z.of_nat n) (Z.of_nat (String.length s))) with 0%Z by lia.
    rewrite Z.sub_0_r, Nat2Z.id. apply substring_whole.
Qed.

Section CardMasking.
Import Payments.

(** C8. The card number ['1234567890123456'] is masked as
    ['****-****-****-3456'].  For every card number, the mask is the fixed
    prefix followed by the last four characters (by the whole number when it
    has at most four), and the rendered payment information is the same for
    any two card numbers that end with the same four characters: nothing
    before them is revealed. *)
Theorem maskCardNumber_reveals_last_four :
  maskCardNumber "1234567890123456" = "****-****-****-3456"
  /\ (forall hidden last4 : string,
        String.length last4 = 4%nat ->
        maskCardNumber (hidden ++ last4) = "****-****-****-" ++ last4)
  /\ (forall short : string,
        (String.length short <= 4)%nat ->
        maskCardNumber short = "****-****-****-" ++ short)
  /\ (forall (amount : float) (method : string) (status : Status)
             (processedAt : option string) (cardHolder : string)
             (hidden hidden' last4 : string),
        String.length last4 = 4%nat ->
        getPaymentInfo
          (mkPayment amount method status processedAt
             (CreditCard (hidden ++ last4) cardHolder))
        = getPaymentInfo
            (mkPayment amount method status processedAt
               (CreditCard (hidden' ++ last4) cardHolder))
        /\ info_cardNumber
             (getPaymentInfo
                (mkPayment amount method status processedAt
                   (CreditCard (hidden ++ last4) cardHolder)))
           = Some ("****-****-****-" ++ last4)).
Proof.
  assert (Hmask : forall hidden last4 : string,
            String.length last4 = 4%nat ->
            maskCardNumber (hidden ++ last4) = "****-****-****-" ++ last4).
  { intros hidden last4 Hlen. unfold maskCardNumber.
    change (-4)%Z with (- Z.of_nat 4)%Z.
    rewrite slice_suffix by (auto; lia). reflexivity. }
  split; [reflexivity|]. split; [exact Hmask|]. split.
  - intros short Hlen. unfold maskCardNumber.
    change (-4)%Z with (- Z.of_nat 4)%Z.
    now rewrite slice_short.
  - intros amount0 method0 status0 at0 holder hidden hidden' last4 Hlen.
    unfold getPaymentInfo. simpl.
    rewrite !Hmask by assumption. split; reflexivity.
Qed.

Lemma maskCardNumber_reveals_last_four_witness :
  maskCardNumber ("123456789012" ++ "3456") = "****-****-****-" ++ "3456"
  /\ maskCardNumber "456" = "****-****-****-" ++ "456"
  /\ getPaymentInfo
       (new_CreditCardPayment 250 ("123456789012" ++ "3456") "Joao Silva")
     = getPaymentInfo
         (new_CreditCardPayment 250 ("999999999999" ++ "3456") "Joao Silva").
Proof.
  destruct maskCardNumber_reveals_last_four as (_ & Hmask & Hshort & Hinfo).
  split; [apply Hmask; reflexivity|].
  split; [apply Hshort; simpl; lia|].
  apply (Hinfo 250 "credit_card" pending None "Joao Silva"). reflexivity.
Defined.

End CardMasking.

(** ** The processed total *)

Lemma SF64add_comm (x y : spec_float) : SF64add x y = SF64add y x.
Proof.
  unfold SF64add, SFadd.
  destruct x as [[]|[]| |sx mx ex], y as [[]|[]| |sy my ey];
    try reflexivity.
  rewrite (Z.min_comm ey ex), Z.add_comm. reflexivity.
Qed.

Lemma SF64add_zero_l (x : spec_float) :
  SF64add (S754_zero false) x
  = match x with S754_zero _ => S754_zero false | _ => x end.
Proof. destruct x as [[]|[]| |s m e]; reflexivity. Qed.

Lemma SF64add_zero_r (x : spec_float) (s : bool) :
  SF64add x (S754_zero s)
  = match x with
    | S754_zero sx => if Bool.eqb sx s then x else S754_zero false
    | _ => x
    end.
Proof. destruct x as [[]|[]| |sx m e], s; reflexivity. Qed.

(** From 0, adding two numbers in either order gives the same binary64. *)
Lemma add_two_from_zero (a b : float) : 0 + a + b = 0 + b + a.
Proof.
  apply Prim2SF_inj. rewrite !add_spec.
  change (Prim2SF 0) with (S754_zero false).
  rewrite !SF64add_zero_l.
  destruct (Prim2SF a) as [sa|sa| |sa ma ea] eqn:Ea;
    destruct (Prim2SF b) as [sb|sb| |sb mb eb] eqn:Eb;
    try rewrite !SF64add_zero_r; try rewrite !SF64add_zero_l;
    try reflexivity; try apply SF64add_comm.
  all: try (destruct sa, sb; reflexivity).
Qed.

Section ProcessedTotal.
Import Payments.

Lemma fold_amount (ps : list Payment) (start : float) :
  List.fold_left (fun total p => total + amount p) ps start
  = List.fold_left PrimFloat.add (List.map amount ps) start.
Proof.
  revert start. induction ps as [|p ps IH]; intro start; simpl;
    [reflexivity | apply IH].
Qed.

Lemma objects_app (refs refs' : list Ref) (h : list Payment) :
  objects (refs ++ refs') h = (objects refs h ++ objects refs' h)%list.
Proof. apply List.flat_map_app. Qed.

Lemma objects_cons (r : Ref) (refs : list Ref) (h : list Payment)
    (p : Payment) :
  List.nth_error h r = Some p -> objects (r :: refs) h = p :: objects refs h.
Proof. intro H. unfold objects. simpl. now rewrite H. Qed.

Lemma nth_error_object (r : Ref) (h : list Payment) :
  (r < List.length h)%nat -> exists p, List.nth_error h r = Some p.
Proof.
  intro Hr. destruct (List.nth_error h r) as [p|] eqn:E; [eauto|].
  apply List.nth_error_None in E. lia.
Qed.

Lemma reduce_amounts_objects (h : list Payment) (refs : list Ref)
    (total : float) :
  List.Forall (fun r => (r < List.length h)%nat) refs ->
  reduce_amounts h refs total
  = Normal (List.fold_left (fun t p => t + amount p) (objects refs h) total).
Proof.
  revert total. induction refs as [|r refs IH]; intros total Hrefs;
    [reflexivity|].
  inversion Hrefs as [|r0 refs0 Hr Hrest]; subst.
  destruct (nth_error_object r h Hr) as (p & Hp).
  rewrite (objects_cons r refs h p Hp). simpl. rewrite Hp. now apply IH.
Qed.

Lemma map_payments_objects {A : Type} (f : Payment -> A) (h : list Payment)
    (refs : list Ref) :
  List.Forall (fun r => (r < List.length h)%nat) refs ->
  map_payments f h refs = Normal (List.map f (objects refs h)).
Proof.
  induction refs as [|r refs IH]; intro Hrefs; [reflexivity|].
  inversion Hrefs as [|r0 refs0 Hr Hrest]; subst.
  destruct (nth_error_object r h Hr) as (p & Hp).
  rewrite (objects_cons r refs h p Hp). simpl. rewrite Hp, IH by exact Hrest.
  reflexivity.
Qed.

Lemma objects_nth (refs : list Ref) (h : list Payment) (i : nat) (r : Ref) :
  List.Forall (fun r => (r < List.length h)%nat) refs ->
  List.nth_error refs i = Some r ->
  List.nth_error (objects refs h) i = List.nth_error h r.
Proof.
  revert i. induction refs as [|r0 refs IH]; intros i Hrefs Hi.
  - destruct i; discriminate.
  - inversion Hrefs as [|r1 refs1 Hr Hrest]; subst.
    destruct (nth_error_object r0 h Hr) as (p & Hp).
    rewrite (objects_cons r0 refs h p Hp).
    destruct i as [|i]; simpl in *.
    + injection Hi as <-. now rewrite Hp.
    + now apply IH.
Qed.

Lemma objects_length (refs : list Ref) (h : list Payment) :
  List.Forall (fun r => (r < List.length h)%nat) refs ->
  List.length (objects refs h) = List.length refs.
Proof.
  induction refs as [|r refs IH]; intro Hrefs; [reflexivity|].
  inversion Hrefs as [|r1 refs1 Hr Hrest]; subst.
  destruct (nth_error_object r h Hr) as (p & Hp).
  rewrite (objects_cons r refs h p Hp). simpl. now rewrite IH.
Qed.

Lemma In_objects (refs : list Ref) (h : list Payment) (r : Ref)
    (p : Payment) :
  List.In r refs -> List.nth_error h r = Some p -> List.In p (objects refs h).
Proof.
  intros Hin Hp. unfold objects. apply List.in_flat_map.
  exists r. split; [exact Hin|]. rewrite Hp. now left.
Qed.

(** A call leaves the amounts of all objects as they were. *)
Lemma objects_replace_amounts (refs : list Ref) (r : Ref) (p p' : Payment)
    (h : list Payment) :
  List.nth_error h r = Some p -> amount p' = amount p ->
  List.map amount (objects refs (replace r p' h))
  = List.map amount (objects refs h).
Proof.
  intros Hp Hamount.
  assert (Hr : (r < List.length h)%nat)
    by (apply List.nth_error_Some; congruence).
  induction refs as [|r' refs IH]; [reflexivity|].
  unfold objects in *. simpl. rewrite !List.map_app, IH. f_equal.
  destruct (Nat.eq_dec r r') as [<- | Hne].
  - rewrite (nth_error_replace_same r p' h Hr), Hp. simpl. now rewrite Hamount.
  - now rewrite nth_error_replace_other by exact Hne.
Qed.

Lemma objects_replace_Forall (Q : Payment -> Prop) (refs : list Ref)
    (r : Ref) (p' : Payment) (h : list Payment) :
  Q p' -> List.Forall Q (objects refs h) ->
  List.Forall Q (objects refs (replace r p' h)).
Proof.
  intro Hnew. induction refs as [|r' refs IH]; [constructor|].
  unfold objects in *. simpl. rewrite !List.Forall_app. intros (Hhead & Htail).
  split; [|auto].
  destruct (List.nth_error (replace r p' h) r') as [q|] eqn:E;
    [|constructor].
  apply nth_error_replace_cases in E. destruct E as [(_ & ->) | (_ & E)].
  - repeat constructor. exact Hnew.
  - now rewrite E in Hhead.
Qed.

Lemma objects_replace_absent (refs : list Ref) (r : Ref) (p' : Payment)
    (h : list Payment) :
  ~ List.In r refs -> objects refs (replace r p' h) = objects refs h.
Proof.
  induction refs as [|r' refs IH]; intro Habsent; [reflexivity|].
  unfold objects in *. simpl. rewrite IH by (intro; apply Habsent; now right).
  rewrite nth_error_replace_other; [reflexivity|].
  intros ->. apply Habsent. now left.
Qed.

Lemma processPayment_well_formed (now : string) (r : Ref) (s : Store)
    (p : Payment) :
  lookup r s = Some p -> well_formed s ->
  well_formed (snd (processPayment now r s)).
Proof.
  intros Hp Hs. rewrite (processPayment_object now r s p Hp).
  unfold well_formed, denotes_object in *. simpl. rewrite replace_length.
  apply List.Forall_app. split; [exact Hs|].
  repeat constructor. exact (lookup_denotes r s p Hp).
Qed.

Lemma getTotalProcessed_recorded (s : Store) :
  well_formed s ->
  getTotalProcessed s
  = Normal (List.fold_left PrimFloat.add (List.map amount (recorded s)) 0).
Proof.
  intro Hs. unfold getTotalProcessed, recorded.
  rewrite reduce_amounts_objects by exact Hs. now rewrite fold_amount.
Qed.

(** Reading a total out of a completion, to compare two of them. *)
Ltac totals_differ H c :=
  apply (f_equal (fun outcome => match outcome with
                                 | Normal total => PrimFloat.eqb total c
                                 | Throw _ => false
                                 end)) in H;
  vm_compute in H; discriminate H.

(** C9, as stated, fails on the order independence: binary64 addition is not
    associative, and the reduction adds from left to right.  Processing 0.10,
    0.20, 0.30 totals 0.6000000000000001; processing the same payments in the
    opposite order totals 0.6. *)
Lemma getTotalProcessed_depends_on_order :
  ~ (forall (s : Store) (batch batch' : list (string * Ref)),
       well_formed s ->
       List.Forall (fun entry => denotes_object s (snd entry)) batch ->
       Permutation.Permutation batch batch' ->
       getTotalProcessed (processAll batch s)
       = getTotalProcessed (processAll batch' s)).
Proof.
  intro claim.
  specialize (claim three_pix_store three_pix_payments
                (List.rev three_pix_payments)).
  assert (Hsame : getTotalProcessed (processAll three_pix_payments
                                       three_pix_store)
                  = getTotalProcessed (processAll (List.rev three_pix_payments)
                                         three_pix_store)).
  { apply claim.
    - constructor.
    - repeat constructor; unfold denotes_object; simpl; lia.
    - apply Permutation.Permutation_rev. }
  totals_differ Hsame 0.6.
Qed.

(** C9, amended. [getTotalProcessed] is the left-to-right binary64 sum, from
    0, of the [amount] of every recorded payment in recording order, whatever
    the status of the payments: it is 0 for a new processor, every
    [processPayment] adds the amount of its payment, and two histories with
    the same amounts in the same order have the same total.  With two recorded
    payments the total does not depend on their order. *)
Theorem getTotalProcessed_sum :
  getTotalProcessed new_PaymentProcessor = Normal 0
  /\ (forall s : Store, payments s = [] -> getTotalProcessed s = Normal 0)
  /\ (forall (now : string) (r : Ref) (s : Store) (p : Payment),
        well_formed s -> lookup r s = Some p ->
        exists total,
          getTotalProcessed s = Normal total
          /\ getTotalProcessed (snd (processPayment now r s))
             = Normal (total + amount p))
  /\ (forall s : Store,
        well_formed s ->
        getTotalProcessed s
        = Normal
            (List.fold_left PrimFloat.add (List.map amount (recorded s)) 0))
  /\ (forall s s' : Store,
        well_formed s -> well_formed s' ->
        List.map amount (recorded s) = List.map amount (recorded s') ->
        getTotalProcessed s = getTotalProcessed s')
  /\ (forall (h : list Payment) (log : list (Ref * Call)) (r1 r2 : Ref),
        (r1 < List.length h)%nat -> (r2 < List.length h)%nat ->
        getTotalProcessed (mkStore h [r1; r2] log)
        = getTotalProcessed (mkStore h [r2; r1] log)).
Proof.
  split; [reflexivity|]. split; [|split; [|split; [|split]]].
  - intros s Hnone. unfold getTotalProcessed. now rewrite Hnone.
  - intros now r s p Hs Hp. eexists. split.
    + apply getTotalProcessed_recorded. exact Hs.
    + rewrite getTotalProcessed_recorded
        by (eapply processPayment_well_formed; eauto).
      rewrite (processPayment_object now r s p Hp). unfold recorded. simpl.
      pose proof (processed_amount now p) as Hamount.
      rewrite (objects_replace_amounts _ r p _ (heap s) Hp Hamount).
      rewrite objects_app, (objects_cons r [] (heap s) p Hp).
      rewrite List.map_app, List.fold_left_app. reflexivity.
  - intros s Hs. now apply getTotalProcessed_recorded.
  - intros s s' Hs Hs' Hsame.
    now rewrite !getTotalProcessed_recorded, Hsame by assumption.
  - intros h log r1 r2 H1 H2.
    destruct (nth_error_object r1 h H1) as (p & Hp).
    destruct (nth_error_object r2 h H2) as (q & Hq).
    unfold getTotalProcessed. simpl. rewrite Hp, Hq. simpl.
    f_equal. apply add_two_from_zero.
Qed.

Lemma getTotalProcessed_sum_witness :
  exists total,
    getTotalProcessed credit_card_store = Normal total
    /\ getTotalProcessed
         (snd (processPayment "2024-01-01T10:00:00.000Z" 0%nat
                 credit_card_store))
       = Normal
           (total
            + amount
                (new_CreditCardPayment 250 "1234567890123456" "Joao Silva")).
Proof.
  apply (proj1 (proj2 (proj2 getTotalProcessed_sum))
           "2024-01-01T10:00:00.000Z" 0%nat credit_card_store).
  - constructor.
  - reflexivity.
Defined.

End ProcessedTotal.

(** ** The order with items: total, discount and finalization *)

Lemma ltb_500_200 (t : float) : (500 <? t) = true -> (200 <? t) = true.
Proof.
  rewrite !FloatAxioms.ltb_spec.
  let x := eval vm_compute in (Prim2SF 500) in change (Prim2SF 500) with x.
  let x := eval vm_compute in (Prim2SF 200) in change (Prim2SF 200) with x.
  destruct (Prim2SF t) as [[]|[]| |[] m e]; cbn [SFltb SFcompare];
    try congruence.
  destruct (Z.compare_spec (-44) e), (Z.compare_spec (-45) e);
    try lia; congruence.
Qed.

Section AggregateOrders.
Import Aggregate.

Lemma Aggregate_validator_cases (order : Order) :
  validate OrderValidator order =
    if negb (truthy (id order)) || negb (truthy (customerName order)) then
      (Throw "Order must have id and customer name", order)
    else if Nat.eqb (List.length (items order)) 0 then
      (Throw "Order must have at least one item", order)
    else (Normal true, order).
Proof. reflexivity. Qed.

Lemma Aggregate_validator_accepts (order : Order) :
  fst (validate OrderValidator order) = Normal true <->
  non_empty (id order) /\ non_empty (customerName order)
  /\ exists first rest, items order = first :: rest.
Proof.
  rewrite Aggregate_validator_cases, <- !truthy_non_empty.
  destruct (truthy (id order)), (truthy (customerName order)),
    (items order) as [|first rest]; simpl; split;
    try solve [ discriminate | intuition discriminate ];
    try solve [ intros (_ & _ & a & b & E); discriminate E ];
    eauto.
Qed.

Lemma Aggregate_validator_outcome (order : Order) :
  validate OrderValidator order = (fst (validate OrderValidator order), order).
Proof.
  rewrite Aggregate_validator_cases.
  destruct (negb (truthy (id order)) || negb (truthy (customerName order))),
    (Nat.eqb (List.length (items order)) 0); reflexivity.
Qed.

(** C1, as stated, fails at the upper boundary: a total of exactly 500 is not
    above 500 but is above 200, so the discount is 5% of it, 25, not 0. *)
Lemma calculateDiscount_at_500_is_not_zero :
  ~ (forall order : Order,
       getTotal order = 500 ->
       calculateDiscount DiscountCalculator order = 0).
Proof.
  intro claim. specialize (claim (order_of_price 500) eq_refl).
  floats_differ claim 0.
Qed.

(** C1, amended. With strict comparisons at both thresholds, the discount is
    10% of a total above 500, 5% of a total above 200 and not above 500, and
    0 otherwise.  At the boundaries: a total of 500 gets 25 (5%: 500 is
    excluded from the 10% tier only), 500.01 gets 10% of it, 200 gets 0, and
    200.01 gets 5% of it. *)
Theorem calculateDiscount_tiers : forall order : Order,
  let total := getTotal order in
  let discount := calculateDiscount DiscountCalculator order in
  (total = 500 -> discount = 25)
  /\ (total = 500.01 -> discount = 500.01 * 0.1)
  /\ (total = 200 -> discount = 0)
  /\ (total = 200.01 -> discount = 200.01 * 0.05)
  /\ ((500 <? total) = true -> discount = total * 0.1)
  /\ ((200 <? total) = true -> (500 <? total) = false ->
      discount = total * 0.05)
  /\ ((200 <? total) = false -> discount = 0).
Proof.
  intros order total discount. unfold discount. simpl. fold total.
  repeat split.
  - intros ->. reflexivity.
  - intros ->. reflexivity.
  - intros ->. reflexivity.
  - intros ->. reflexivity.
  - intros ->. reflexivity.
  - intros -> ->. reflexivity.
  - intro Hlow. destruct (500 <? total) eqn:Hhigh.
    + apply ltb_500_200 in Hhigh. congruence.
    + now rewrite Hlow.
Qed.

Lemma calculateDiscount_tiers_witness :
  calculateDiscount DiscountCalculator (order_of_price 500) = 25
  /\ calculateDiscount DiscountCalculator (order_of_price 500.01)
     = 500.01 * 0.1
  /\ calculateDiscount DiscountCalculator (order_of_price 200) = 0
  /\ calculateDiscount DiscountCalculator (order_of_price 200.01)
     = 200.01 * 0.05
  /\ calculateDiscount DiscountCalculator order1 = getTotal order1 * 0.1.
Proof.
  split; [apply (calculateDiscount_tiers (order_of_price 500)); reflexivity|].
  split;
    [apply (calculateDiscount_tiers (order_of_price 500.01)); reflexivity|].
  split; [apply (calculateDiscount_tiers (order_of_price 200)); reflexivity|].
  split;
    [apply (calculateDiscount_tiers (order_of_price 200.01)); reflexivity|].
  apply (calculateDiscount_tiers order1). reflexivity.
Defined.

(** C2, as stated, fails on the figures: 2500 x 1 + 50 x 2 + 150 x 1 is 2750,
    so the order of [main] is finalized with total 2750, not 2700. *)
Lemma finalizeOrder_example_total_is_not_2700 :
  ~ (exists result order',
       finalizeOrder integratedService order1 = (Normal result, order')
       /\ result_total result = 2700
       /\ result_discount result = 270
       /\ result_finalTotal result = 2430).
Proof.
  intros (result & order' & Hfinal & Htotal & _).
  vm_compute in Hfinal. injection Hfinal as <- <-.
  floats_differ Htotal 2700.
Qed.

(** C2, amended. When the validator accepts the order, [finalizeOrder] sets
    its status to [completed] and returns the snapshot of the completed
    order, the discount, the total and [finalTotal = total - discount]; when
    the validator raises, the error propagates and the order is untouched.
    For an order with a non-empty identifier and customer name and exactly
    the items (2500 x 1, 50 x 2, 150 x 1), the call succeeds with total 2750,
    discount 275 (the 10% tier) and finalTotal 2475. *)
Theorem finalizeOrder_result : forall order : Order,
  (fst (validate OrderValidator order) = Normal true ->
   finalizeOrder integratedService order
   = (Normal
        (mkFinalized (getInfo (set_status completed order))
           (calculateDiscount DiscountCalculator order) (getTotal order)
           (getTotal order - calculateDiscount DiscountCalculator order)),
      set_status completed order))
  /\ (forall message,
        fst (validate OrderValidator order) = Throw message ->
        finalizeOrder integratedService order = (Throw message, order))
  /\ (forall p1 p2 p3 : Product,
        non_empty (id order) -> non_empty (customerName order) ->
        items order = [mkOrderItem p1 1; mkOrderItem p2 2; mkOrderItem p3 1] ->
        price p1 = 2500 -> price p2 = 50 -> price p3 = 150 ->
        exists result,
          finalizeOrder integratedService order
          = (Normal result, set_status completed order)
          /\ result_total result = 2750
          /\ result_discount result = 275
          /\ result_finalTotal result = 2475
          /\ result_order result = getInfo (set_status completed order)
          /\ info_status (result_order result) = completed).
Proof.
  intro order.
  assert (Hok : fst (validate OrderValidator order) = Normal true ->
    finalizeOrder integratedService order
    = (Normal
         (mkFinalized (getInfo (set_status completed order))
            (calculateDiscount DiscountCalculator order) (getTotal order)
            (getTotal order - calculateDiscount DiscountCalculator order)),
       set_status completed order)).
  { intro H. unfold finalizeOrder, integratedService, bind. simpl validator.
    rewrite Aggregate_validator_outcome, H. reflexivity. }
  split; [exact Hok|]. split.
  - intros message H. unfold finalizeOrder, integratedService, bind.
    simpl validator. rewrite Aggregate_validator_outcome, H. reflexivity.
  - intros p1 p2 p3 Hid Hname Hitems H1 H2 H3.
    eexists. split.
    + apply Hok, Aggregate_validator_accepts. rewrite Hitems. eauto.
    + assert (Htotal : getTotal order = 2750).
      { unfold getTotal, getSubtotal. rewrite Hitems. simpl.
        rewrite H1, H2, H3. reflexivity. }
      simpl. rewrite Htotal. repeat split.
Qed.

Lemma finalizeOrder_result_witness :
  exists result,
    finalizeOrder integratedService order1
    = (Normal result, set_status completed order1)
    /\ result_total result = 2750
    /\ result_discount result = 275
    /\ result_finalTotal result = 2475
    /\ result_order result = getInfo (set_status completed order1)
    /\ info_status (result_order result) = completed.
Proof.
  apply (proj2 (proj2 (finalizeOrder_result order1)) notebook mouse teclado).
  - do 2 eexists; reflexivity.
  - do 2 eexists; reflexivity.
  - reflexivity.
  - reflexivity.
  - reflexivity.
  - reflexivity.
Defined.

End AggregateOrders.

(** ** What every validator guarantees of an accepted order *)

(** C3, as stated, fails for the validator of the order with items: it never
    looks at the total, and accepts an order whose only item is free. *)
Lemma items_validator_accepts_zero_total :
  ~ (forall order : Aggregate.Order,
       fst (Aggregate.validate Aggregate.OrderValidator order) = Normal true ->
       non_empty (Aggregate.id order)
       /\ non_empty (Aggregate.customerName order)
       /\ (exists first rest, Aggregate.items order = first :: rest)
       /\ (0 <? Aggregate.getTotal order) = true).
Proof.
  intro claim.
  destruct (claim free_sample_order eq_refl) as (_ & _ & _ & Hpositive).
  vm_compute in Hpositive. discriminate Hpositive.
Qed.

(** The base validator of the simple variant lets a total through that is
    not a number, because [NaN <= 0] is false. *)
Lemma simple_validator_accepts_nan_total :
  let order := Simple.new_Order (Str "ORD-006") (Str "Ana Lima")
                 (Simple.ArrayOf ["Produto E"]) nan in
  Simple.validate Simple.OrderValidator order = (Normal true, order)
  /\ (0 <? Simple.total order) = false.
Proof. split; reflexivity. Qed.

(** C3, amended. Every validator accepts an order only if it has a non-empty
    identifier, a non-empty customer name and at least one item.  The two
    validators of the simple variant accept it, moreover, only if its total
    is not [<= 0], that is positive or not a number; the validator of the
    order with items puts no condition on the total. *)
Theorem validators_accept_only :
  (forall (v : Simple.Validator) (order : Simple.Order),
     source_validator v ->
     fst (Simple.validate v order) = Normal true ->
     non_empty (Simple.id order) /\ non_empty (Simple.customerName order)
     /\ at_least_one_item (Simple.items order)
     /\ (Simple.total order <=? 0) = false
     /\ ((0 <? Simple.total order) = true
         \/ is_nan (Simple.total order) = true))
  /\ (forall order : Aggregate.Order,
        fst (Aggregate.validate Aggregate.OrderValidator order) = Normal true ->
        non_empty (Aggregate.id order)
        /\ non_empty (Aggregate.customerName order)
        /\ exists first rest, Aggregate.items order = first :: rest).
Proof.
  split.
  - intros v order Hv Haccepted.
    assert (Hbase : fst (Simple.validate Simple.OrderValidator order)
                    = Normal true).
    { destruct Hv as [-> | ->]; [exact Haccepted|].
      now apply StrictOrderValidator_accepts. }
    apply OrderValidator_accepts in Hbase.
    rewrite !truthy_non_empty, no_items_at_least_one in Hbase.
    destruct Hbase as (Hid & Hname & Hitems & Htotal).
    auto 6 using not_leb_zero.
  - intros order Haccepted. now apply Aggregate_validator_accepts.
Qed.

Lemma validators_accept_only_witness :
  (let order := Simple.new_Order (Str "ORD-003") (Str "Pedro Costa")
                  (Simple.ArrayOf ["Produto D"]) 200 in
   non_empty (Simple.id order) /\ non_empty (Simple.customerName order)
   /\ at_least_one_item (Simple.items order)
   /\ (Simple.total order <=? 0) = false
   /\ ((0 <? Simple.total order) = true
       \/ is_nan (Simple.total order) = true))
  /\ (non_empty (Aggregate.id order1)
      /\ non_empty (Aggregate.customerName order1)
      /\ exists first rest, Aggregate.items order1 = first :: rest).
Proof.
  split.
  - apply (proj1 validators_accept_only Simple.StrictOrderValidator).
    + right. reflexivity.
    + reflexivity.
  - apply (proj2 validators_accept_only order1). reflexivity.
Defined.

(** * Further properties of the scripts *)

(** ** Lookup in the repository *)

Lemma strict_equal_eq (a b : field) : strict_equal a b = true <-> a = b.
Proof.
  destruct a as [| |x], b as [| |y]; simpl; try (split; congruence).
  rewrite String.eqb_eq. split; congruence.
Qed.

Lemma strict_equal_neq (a b : field) : strict_equal a b = false <-> a <> b.
Proof.
  rewrite <- strict_equal_eq. destruct (strict_equal a b); split; congruence.
Qed.

Lemma find_first {A : Type} (f : A -> bool) (l : list A) (x : A) :
  List.find f l = Some x ->
  f x = true
  /\ exists before after,
       l = (before ++ x :: after)%list
       /\ forall y, List.In y before -> f y = false.
Proof.
  induction l as [|y l IH]; simpl; [discriminate|].
  destruct (f y) eqn:Hy.
  - intros [= ->]. split; [exact Hy|]. exists [], l. split; [reflexivity|].
    intros z [].
  - intro Hfind. destruct (IH Hfind) as (Hx & before & after & -> & Hbefore).
    split; [exact Hx|]. exists (y :: before), after. split; [reflexivity|].
    intros z [<- | Hz]; auto.
Qed.

Lemma find_none_iff {A : Type} (f : A -> bool) (l : list A) :
  List.find f l = None <-> forall y, List.In y l -> f y = false.
Proof.
  split.
  - intros Hnone y Hy. exact (List.find_none f l Hnone y Hy).
  - induction l as [|y l IH]; simpl; [reflexivity|]. intro Hall.
    rewrite (Hall y (or_introl eq_refl)). apply IH. auto.
Qed.

Lemma find_app_some {A : Type} (f : A -> bool) (l l' : list A) (x : A) :
  List.find f l = Some x -> List.find f (l ++ l') = Some x.
Proof.
  induction l as [|y l IH]; simpl; [discriminate|].
  destruct (f y); auto.
Qed.

Section RepositoryLookup.
Import Simple.

Lemma source_repository_findById (repo : Repository) (wanted : field)
    (s : Store) :
  source_repository repo ->
  findById repo wanted s
  = List.find (fun o => strict_equal (id o) wanted) (orders s)
  /\ findAll repo s = orders s.
Proof. intros [-> | ->]; split; reflexivity. Qed.

Lemma source_repository_save (repo : Repository) (order : Order) (s : Store) :
  source_repository repo ->
  fst (save repo order s) = order
  /\ orders (snd (save repo order s)) = (orders s ++ [order])%list.
Proof. intros [-> | ->]; split; reflexivity. Qed.

Lemma source_validator_outcome (v : Validator) (order : Order) :
  source_validator v ->
  validate v order = (Normal true, order)
  \/ exists message, validate v order = (Throw message, order).
Proof.
  intros [-> | ->].
  - rewrite OrderValidator_outcome.
    destruct (fst (validate OrderValidator order)) as [b|m] eqn:E; eauto.
    left. now rewrite (OrderValidator_returns_true order b E).
  - rewrite StrictOrderValidator_cases, OrderValidator_outcome.
    destruct (fst (validate OrderValidator order)) as [b|m]; eauto.
    destruct (10000 <? total order); eauto.
Qed.

(** X1. [findById] never fails: it answers with no order exactly when no
    stored order has the identifier (so always on an empty repository), and
    otherwise with the first stored order that has it. *)
Theorem findById_first_match :
  forall (repo : Repository) (wanted : field) (s : Store),
  source_repository repo ->
  (findById repo wanted s = None <->
     forall o, List.In o (findAll repo s) -> id o <> wanted)
  /\ (findAll repo s = [] -> findById repo wanted s = None)
  /\ (forall found,
        findById repo wanted s = Some found ->
        id found = wanted
        /\ exists before after,
             findAll repo s = (before ++ found :: after)%list
             /\ forall earlier, List.In earlier before -> id earlier <> wanted).
Proof.
  intros repo wanted s Hrepo.
  destruct (source_repository_findById repo wanted s Hrepo) as (-> & ->).
  split; [|split].
  - rewrite find_none_iff. split; intros H o Ho; apply strict_equal_neq; auto.
  - intros ->. reflexivity.
  - intros found Hfound. apply find_first in Hfound.
    destruct Hfound as (Hid & before & after & Hsplit & Hbefore).
    split; [now apply strict_equal_eq|].
    exists before, after. split; [exact Hsplit|].
    intros earlier Hin. apply strict_equal_neq. auto.
Qed.

Lemma findById_first_match_witness :
  (findById DatabaseOrderRepository (Str "ORD-009") store_with_ORD_001 = None
   <-> forall o,
         List.In o (findAll DatabaseOrderRepository store_with_ORD_001) ->
         id o <> Str "ORD-009")
  /\ (findAll DatabaseOrderRepository store_with_ORD_001 = [] ->
      findById DatabaseOrderRepository (Str "ORD-009") store_with_ORD_001
      = None)
  /\ (forall found,
        findById DatabaseOrderRepository (Str "ORD-009") store_with_ORD_001
        = Some found ->
        id found = Str "ORD-009"
        /\ exists before after,
             findAll DatabaseOrderRepository store_with_ORD_001
             = (before ++ found :: after)%list
             /\ forall earlier,
                  List.In earlier before -> id earlier <> Str "ORD-009").
Proof.
  apply (findById_first_match DatabaseOrderRepository (Str "ORD-009")
           store_with_ORD_001).
  right. reflexivity.
Defined.

(** X2. A lookup that has succeeded keeps its answer: whatever is created
    afterwards, accepted or rejected, under the same identifier or another,
    [getOrder] returns the same order. *)
Theorem getOrder_stable_under_createOrder :
  forall (service : OrderService) (wanted id customerName : field)
         (items : ItemsValue) (total : float) (s : Store) (found : Order),
  source_repository (repository service) ->
  getOrder service wanted s = Some found ->
  getOrder service wanted
    (snd (createOrder service id customerName items total s))
  = Some found.
Proof.
  intros service wanted id0 name0 items0 total0 s found Hrepo Hfound.
  unfold getOrder, createOrder in *.
  destruct (validate (validator service)
              (new_Order id0 name0 items0 total0)) as [[b|m] order'];
    [|exact Hfound].
  destruct (source_repository_save (repository service) order' s Hrepo)
    as (_ & Hsaved).
  destruct (save (repository service) order' s) as [saved s'].
  simpl in *.
  destruct (source_repository_findById (repository service) wanted s Hrepo)
    as (Hbefore & _).
  destruct (source_repository_findById (repository service) wanted s' Hrepo)
    as (-> & _).
  rewrite Hsaved. apply find_app_some. now rewrite <- Hbefore.
Qed.

Lemma getOrder_stable_under_createOrder_witness :
  getOrder basicService (Str "ORD-001")
    (snd (createOrder basicService (Str "ORD-001") (Str "Joao Silva")
            (ArrayOf ["Produto A"]) 150 store_with_ORD_001))
  = Some (new_Order (Str "ORD-001") (Str "Ana Lima")
            (ArrayOf ["Produto E"]) 15).
Proof.
  apply (getOrder_stable_under_createOrder basicService (Str "ORD-001")
           (Str "ORD-001") (Str "Joao Silva") (ArrayOf ["Produto A"]) 150
           store_with_ORD_001).
  - left. reflexivity.
  - reflexivity.
Defined.

(** X3. The logging repository changes nothing but the console: with the same
    validator, [createOrder] returns the same completion and stores the same
    orders as with the plain repository, which never writes to the console;
    the logging one writes exactly one line, naming the identifier, per saved
    order and none for a rejected one. *)
Theorem logging_repository_same_orders :
  forall (v : Validator) (id customerName : field) (items : ItemsValue)
         (total : float) (s : Store),
  let plain := createOrder (mkOrderService v OrderRepository)
                 id customerName items total s in
  let logged := createOrder (mkOrderService v DatabaseOrderRepository)
                  id customerName items total s in
  fst logged = fst plain
  /\ orders (snd logged) = orders (snd plain)
  /\ console (snd plain) = console s
  /\ console (snd logged)
     = match fst logged with
       | Normal saved =>
           (console s
            ++ [("[Database] Saving order " ++ template (Simple.id saved)
                 ++ " to database")%string])%list
       | Throw _ => console s
       end.
Proof.
  intros v id0 name0 items0 total0 s. unfold createOrder. simpl.
  destruct (validate v (new_Order id0 name0 items0 total0))
    as [[b|m] order']; simpl; repeat split.
Qed.

(** X4. With a validator and a repository of the scripts, [createOrder]
    succeeds exactly when the validator accepts the order built from the
    arguments; it then returns that very order and appends it, and nothing
    else, to the stored orders. *)
Theorem createOrder_succeeds_iff_accepted :
  forall (service : OrderService) (id customerName : field)
         (items : ItemsValue) (total : float) (s : Store),
  source_validator (validator service) ->
  source_repository (repository service) ->
  let order := new_Order id customerName items total in
  let outcome := createOrder service id customerName items total s in
  ((exists saved, fst outcome = Normal saved) <->
     accepted_by (validator service) order)
  /\ (forall saved, fst outcome = Normal saved ->
        saved = order
        /\ getAllOrders service (snd outcome)
           = (getAllOrders service s ++ [order])%list).
Proof.
  intros service id0 name0 items0 total0 s Hv Hrepo order outcome.
  unfold outcome, createOrder, accepted_by, getAllOrders. fold order.
  destruct (source_repository_save (repository service) order s Hrepo)
    as (Hfst & Hsnd).
  destruct (source_repository_findById (repository service) undefined s Hrepo)
    as (_ & Hall).
  destruct (source_repository_findById (repository service) undefined
              (snd (save (repository service) order s)) Hrepo) as (_ & Hall').
  destruct (source_validator_outcome (validator service) order Hv)
    as [-> | (message & ->)]; simpl.
  - destruct (save (repository service) order s) as [saved s'] eqn:Hsave.
    simpl in *. subst saved. split.
    + split; eauto.
    + intros saved [= <-]. split; [reflexivity|]. congruence.
  - split.
    + split; [intros (saved & H) | intro H]; discriminate H.
    + intros saved H. discriminate H.
Qed.

Lemma createOrder_succeeds_iff_accepted_witness :
  let order := new_Order (Str "ORD-003") (Str "Pedro Costa")
                 (ArrayOf ["Produto D"]) 200 in
  let outcome := createOrder extendedService (Str "ORD-003")
                   (Str "Pedro Costa") (ArrayOf ["Produto D"]) 200
                   store_with_ORD_001 in
  ((exists saved, fst outcome = Normal saved) <->
     accepted_by (validator extendedService) order)
  /\ (forall saved, fst outcome = Normal saved ->
        saved = order
        /\ getAllOrders extendedService (snd outcome)
           = (getAllOrders extendedService store_with_ORD_001 ++ [order])%list).
Proof.
  apply (createOrder_succeeds_iff_accepted extendedService (Str "ORD-003")
           (Str "Pedro Costa") (ArrayOf ["Produto D"]) 200
           store_with_ORD_001).
  - right. reflexivity.
  - right. reflexivity.
Defined.

(** X5. A repository filled through the service holds validated orders only:
    if every stored order is accepted by the validator of the service, so is
    every stored order after any [createOrder], successful or not. *)
Theorem stored_orders_stay_accepted :
  forall (service : OrderService) (id customerName : field)
         (items : ItemsValue) (total : float) (s : Store),
  source_validator (validator service) ->
  source_repository (repository service) ->
  List.Forall (accepted_by (validator service)) (getAllOrders service s) ->
  List.Forall (accepted_by (validator service))
    (getAllOrders service
       (snd (createOrder service id customerName items total s))).
Proof.
  intros service id0 name0 items0 total0 s Hv Hrepo Hstored.
  unfold createOrder, getAllOrders in *.
  set (order := new_Order id0 name0 items0 total0).
  destruct (source_repository_save (repository service) order s Hrepo)
    as (_ & Hsnd).
  destruct (source_repository_findById (repository service) undefined s Hrepo)
    as (_ & Hall).
  destruct (source_repository_findById (repository service) undefined
              (snd (save (repository service) order s)) Hrepo) as (_ & Hall').
  pose proof (source_validator_outcome (validator service) order Hv) as Hout.
  destruct Hout as [Hok | (message & Hko)]; rewrite ?Hok, ?Hko; simpl.
  - destruct (save (repository service) order s) as [saved s'].
    simpl in *. rewrite Hall', Hsnd, <- Hall.
    apply List.Forall_app. split; [exact Hstored|].
    constructor; [|constructor]. unfold accepted_by. now rewrite Hok.
  - exact Hstored.
Qed.

Lemma stored_orders_stay_accepted_witness :
  List.Forall (accepted_by (validator extendedService))
    (getAllOrders extendedService
       (snd (createOrder extendedService (Str "ORD-003")
               (Str "Pedro Costa") (ArrayOf ["Produto D"]) 200
               store_with_ORD_001))).
Proof.
  apply (stored_orders_stay_accepted extendedService (Str "ORD-003")
           (Str "Pedro Costa") (ArrayOf ["Produto D"]) 200
           store_with_ORD_001).
  - right. reflexivity.
  - right. reflexivity.
  - repeat constructor.
Defined.

End RepositoryLookup.

(** ** The history of a payment processor *)

Lemma is_nan_spec (t : float) : is_nan t = true <-> Prim2SF t = S754_nan.
Proof.
  unfold is_nan. rewrite FloatAxioms.eqb_spec.
  destruct (Prim2SF t) as [s|s| |s m e]; cbn.
  - split; discriminate.
  - destruct s; split; discriminate.
  - split; reflexivity.
  - rewrite Z.compare_refl, Pos.compare_cont_refl.
    destruct s; split; discriminate.
Qed.

Lemma add_nan (a b : float) :
  is_nan a = true \/ is_nan b = true -> is_nan (a + b) = true.
Proof.
  rewrite !is_nan_spec, add_spec.
  intros [-> | ->]; [reflexivity|].
  destruct (Prim2SF a) as [[]|[]| |s m e]; reflexivity.
Qed.

Lemma fold_add_nan (amounts : list float) (start : float) :
  is_nan start = true
  \/ (exists a, List.In a amounts /\ is_nan a = true) ->
  is_nan (List.fold_left PrimFloat.add amounts start) = true.
Proof.
  revert start. induction amounts as [|a amounts IH]; intros start H; simpl.
  - destruct H as [H | (a & [] & _)]. exact H.
  - apply IH. destruct H as [H | (b & [<- | Hin] & Hb)].
    + left. apply add_nan. now left.
    + left. apply add_nan. now right.
    + right. eauto.
Qed.

Lemma split_end (k : nat) (s : string) :
  (k <= String.length s)%nat ->
  exists a b, s = a ++ b /\ String.length b = k.
Proof.
  induction s as [|c s IH]; simpl; intro Hk.
  - exists "", "". split; [reflexivity | simpl; lia].
  - destruct (Nat.eq_dec k (S (String.length s))) as [-> | Hneq].
    + exists "", (String c s). split; reflexivity.
    + destruct IH as (a & b & -> & Hb); [lia|].
      exists (String c a), b. split; [reflexivity | exact Hb].
Qed.

Section ProcessorHistory.
Import Payments.

Lemma processed_fields (now : string) (p : Payment) :
  status (complete now (process p)) = completed
  /\ processedAt (complete now (process p)) = Some now
  /\ amount (complete now (process p)) = amount p
  /\ method (complete now (process p)) = method p
  /\ variant (complete now (process p)) = variant p.
Proof. destruct p as [a m s t []]; repeat split. Qed.

Lemma processed_settled (now : string) (p : Payment) :
  settled (complete now (process p)).
Proof.
  destruct (processed_fields now p) as (Hs & Hat & _). split; eauto.
Qed.

(** X6. A processor records one reference per [processPayment], after those
    it held, also when a payment is processed again: the history grows by
    the size of the batch, the amounts are those of the batch in processing
    order, and if every payment held before was completed and stamped, every
    payment held afterwards is. *)
Theorem processAll_records_settled :
  forall (batch : list (string * Ref)) (s : Store),
  well_formed s ->
  List.Forall (fun entry => denotes_object s (snd entry)) batch ->
  let after := processAll batch s in
  well_formed after
  /\ payments after = (payments s ++ List.map snd batch)%list
  /\ List.length (payments after)
     = (List.length (payments s) + List.length batch)%nat
  /\ List.map amount (recorded after)
     = (List.map amount (recorded s)
        ++ List.map amount (objects (List.map snd batch) (heap s)))%list
  /\ (List.Forall settled (recorded s) ->
      List.Forall settled (recorded after)).
Proof.
  intro batch. induction batch as [|[now r] batch IH]; intros s Hs Hbatch.
  - simpl. rewrite !List.app_nil_r. repeat split; auto.
  - inversion Hbatch as [|entry rest Hr Hrest]; subst. simpl in Hr.
    destruct (nth_error_object r (heap s) Hr) as (p & Hp).
    pose proof (processPayment_well_formed now r s p Hp Hs) as Hs1.
    pose proof (processPayment_object now r s p Hp) as Hstep.
    set (s1 := snd (processPayment now r s)) in *.
    assert (Hheap : heap s1 = replace r (complete now (process p)) (heap s))
      by (unfold s1; now rewrite Hstep).
    assert (Hpayments : payments s1 = (payments s ++ [r])%list)
      by (unfold s1; now rewrite Hstep).
    assert (Hrest1 : List.Forall (fun entry => denotes_object s1 (snd entry))
                       batch).
    { eapply List.Forall_impl; [|exact Hrest]. unfold denotes_object.
      intros entry Hentry. now rewrite Hheap, replace_length. }
    destruct (IH s1 Hs1 Hrest1) as (Hwf & Hrefs & Hlen & Hamounts & Hsettled).
    assert (Hrecorded1 : List.map amount (recorded s1)
                         = (List.map amount (recorded s) ++ [amount p])%list).
    { unfold recorded. rewrite Hheap, Hpayments.
      rewrite (objects_replace_amounts _ r p _ (heap s) Hp
                 (processed_amount now p)).
      now rewrite objects_app, (objects_cons r [] (heap s) p Hp),
        List.map_app. }
    change (processAll ((now, r) :: batch) s) with (processAll batch s1).
    split; [exact Hwf|]. split; [|split; [|split]].
    + rewrite Hrefs, Hpayments, <- List.app_assoc. reflexivity.
    + rewrite Hlen, Hpayments, List.length_app. simpl. lia.
    + rewrite Hamounts, Hrecorded1, <- List.app_assoc. f_equal.
      change (List.map snd ((now, r) :: batch))
        with (r :: List.map snd batch).
      rewrite (objects_cons r _ (heap s) p Hp). simpl.
      f_equal. rewrite Hheap.
      apply (objects_replace_amounts _ r p _ (heap s) Hp
               (processed_amount now p)).
    + intro Hbefore. apply Hsettled. unfold recorded.
      rewrite Hheap, Hpayments.
      rewrite objects_app. apply List.Forall_app. split.
      * apply objects_replace_Forall; [apply processed_settled | exact Hbefore].
      * rewrite (objects_cons r [] _ (complete now (process p)))
          by (apply nth_error_replace_same; exact Hr).
        repeat constructor; apply processed_settled.
Qed.

Lemma processAll_records_settled_witness :
  let after := processAll (three_pix_payments ++ three_pix_payments)
                 three_pix_store in
  well_formed after
  /\ payments after
     = (payments three_pix_store
        ++ List.map snd (three_pix_payments ++ three_pix_payments))%list
  /\ List.length (payments after)
     = (List.length (payments three_pix_store)
        + List.length (three_pix_payments ++ three_pix_payments))%nat
  /\ List.map amount (recorded after)
     = (List.map amount (recorded three_pix_store)
        ++ List.map amount
             (objects (List.map snd (three_pix_payments ++ three_pix_payments))
                (heap three_pix_store)))%list
  /\ (List.Forall settled (recorded three_pix_store) ->
      List.Forall settled (recorded after)).
Proof.
  apply (processAll_records_settled
           (three_pix_payments ++ three_pix_payments) three_pix_store).
  - constructor.
  - repeat constructor; unfold denotes_object; simpl; lia.
Defined.

(** X7. After [processPayment] on a payment object, the payment history ends
    with the rendering of that payment, which shows it completed, stamped
    with the time of the call, and with the amount and the method it had.
    The entries before it are those of the history before the call, except
    that an entry recorded earlier for the same object is rendered anew: it
    shows the new stamp too.  For a payment not recorded before, the history
    is the one before the call followed by the new rendering. *)
Theorem getPaymentHistory_after_processPayment :
  forall (now : string) (r : Ref) (s : Store) (p : Payment),
  well_formed s ->
  lookup r s = Some p ->
  let s' := snd (processPayment now r s) in
  let info := getPaymentInfo (complete now (process p)) in
  exists before earlier,
    getPaymentHistory s = Normal before
    /\ getPaymentHistory s' = Normal (earlier ++ [info])%list
    /\ List.length earlier = List.length before
    /\ (forall (i : nat) (r' : Ref),
          List.nth_error (payments s) i = Some r' ->
          List.nth_error earlier i
          = if Nat.eqb r' r then Some info else List.nth_error before i)
    /\ (~ List.In r (payments s) -> earlier = before)
    /\ info_status info = completed
    /\ info_processedAt info = Some now
    /\ info_amount info = amount p
    /\ info_method info = method p.
Proof.
  intros now r s p Hs Hp s' info.
  pose proof (lookup_denotes r s p Hp) as Hr.
  pose proof (processPayment_well_formed now r s p Hp Hs) as Hs'.
  pose proof (processPayment_object now r s p Hp) as Hstep.
  fold s' in Hs'.
  assert (Hheap : heap s' = replace r (complete now (process p)) (heap s))
    by (unfold s'; now rewrite Hstep).
  assert (Hpayments : payments s' = (payments s ++ [r])%list)
    by (unfold s'; now rewrite Hstep).
  assert (Hvalid : List.Forall (fun r' => (r' < List.length (heap s'))%nat)
                     (payments s)).
  { rewrite Hheap, replace_length. exact Hs. }
  exists (List.map getPaymentInfo (objects (payments s) (heap s))),
    (List.map getPaymentInfo (objects (payments s) (heap s'))).
  split; [apply map_payments_objects; exact Hs|].
  split.
  { unfold getPaymentHistory. rewrite map_payments_objects by exact Hs'.
    rewrite Hpayments, objects_app, List.map_app. f_equal. f_equal.
    rewrite (objects_cons r [] _ (complete now (process p))); [reflexivity|].
    rewrite Hheap. apply nth_error_replace_same. exact Hr. }
  split.
  { rewrite !List.length_map, !objects_length by assumption. reflexivity. }
  split.
  { intros i r' Hi. rewrite !List.nth_error_map.
    rewrite (objects_nth _ _ i r' Hvalid Hi), (objects_nth _ _ i r' Hs Hi).
    rewrite Hheap. destruct (Nat.eqb_spec r' r) as [-> | Hne].
    - now rewrite (nth_error_replace_same r _ (heap s) Hr).
    - rewrite nth_error_replace_other by congruence. reflexivity. }
  split.
  { intro Habsent. rewrite Hheap.
    now rewrite objects_replace_absent by exact Habsent. }
  unfold info. destruct p as [a m st t []]; repeat split.
Qed.

Lemma getPaymentHistory_after_processPayment_witness :
  let now := "2024-01-01T10:00:05.000Z" in
  let s := processAll three_pix_payments three_pix_store in
  let s' := snd (processPayment now 1%nat s) in
  let info :=
    getPaymentInfo
      (complete now
         (process
            (complete "2024-01-01T10:00:01.000Z"
               (process (new_PixPayment 0.2 "b@email.com"))))) in
  exists before earlier,
    getPaymentHistory s = Normal before
    /\ getPaymentHistory s' = Normal (earlier ++ [info])%list
    /\ List.length earlier = List.length before
    /\ (forall (i : nat) (r' : Ref),
          List.nth_error (payments s) i = Some r' ->
          List.nth_error earlier i
          = if Nat.eqb r' 1%nat then Some info else List.nth_error before i)
    /\ (~ List.In 1%nat (payments s) -> earlier = before)
    /\ info_status info = completed
    /\ info_processedAt info = Some now
    /\ info_amount info
       = amount
           (complete "2024-01-01T10:00:01.000Z"
              (process (new_PixPayment 0.2 "b@email.com")))
    /\ info_method info
       = method
           (complete "2024-01-01T10:00:01.000Z"
              (process (new_PixPayment 0.2 "b@email.com"))).
Proof.
  intros now s.
  apply (getPaymentHistory_after_processPayment now 1%nat s
           (complete "2024-01-01T10:00:01.000Z"
              (process (new_PixPayment 0.2 "b@email.com")))).
  - repeat constructor; unfold denotes_object; simpl; lia.
  - reflexivity.
Defined.

(** X8. Whatever its length, a card number is masked as the fixed prefix
    followed by its last [min 4 length] characters, so the mask has
    [15 + min 4 length] characters: at most the four trailing characters of
    the number appear in it, and the empty number gives the bare prefix. *)
Theorem maskCardNumber_shape : forall cardNumber : string,
  exists hidden shown,
    cardNumber = hidden ++ shown
    /\ String.length shown = Nat.min 4 (String.length cardNumber)
    /\ maskCardNumber cardNumber = "****-****-****-" ++ shown
    /\ String.length (maskCardNumber cardNumber)
       = (15 + Nat.min 4 (String.length cardNumber))%nat.
Proof.
  intro cardNumber. unfold maskCardNumber.
  change (-4)%Z with (- Z.of_nat 4)%Z.
  destruct (Nat.le_gt_cases (String.length cardNumber) 4) as [Hshort | Hlong].
  - exists "", cardNumber. rewrite slice_short by exact Hshort.
    rewrite length_append. simpl String.length.
    repeat split; lia.
  - destruct (split_end 4 cardNumber) as (hidden & shown & -> & Hshown);
      [lia|].
    exists hidden, shown. rewrite slice_suffix by (auto; lia).
    rewrite !length_append in *. simpl String.length.
    repeat split; lia.
Qed.

(** X9. One amount that is not a number spoils the total: if any recorded
    payment has a NaN amount, [getTotalProcessed] is NaN. *)
Theorem getTotalProcessed_nan :
  forall (s : Store) (r : Ref) (p : Payment),
  well_formed s ->
  List.In r (payments s) ->
  lookup r s = Some p ->
  is_nan (amount p) = true ->
  exists total, getTotalProcessed s = Normal total /\ is_nan total = true.
Proof.
  intros s r p Hs Hin Hp Hnan. eexists. split.
  - unfold getTotalProcessed. apply reduce_amounts_objects. exact Hs.
  - rewrite fold_amount. apply fold_add_nan. right.
    exists (amount p). split; [|exact Hnan].
    apply List.in_map. now apply (In_objects _ _ r).
Qed.

Lemma getTotalProcessed_nan_witness :
  let s := mkStore
             [new_PixPayment 100 "a@email.com";
              new_PixPayment nan "b@email.com";
              new_PixPayment 50 "c@email.com"]
             [0%nat; 1%nat; 2%nat] [] in
  exists total, getTotalProcessed s = Normal total /\ is_nan total = true.
Proof.
  intro s.
  apply (getTotalProcessed_nan s 1%nat (new_PixPayment nan "b@email.com")).
  - repeat constructor; unfold denotes_object; simpl; lia.
  - simpl. right. left. reflexivity.
  - reflexivity.
  - reflexivity.
Defined.

End ProcessorHistory.

(** ** Building and finalizing an order with items *)

Lemma fold_subtotals (infos : list Aggregate.OrderItem) (start : float) :
  List.fold_left (fun total item => total + Aggregate.info_subtotal item)
    (List.map Aggregate.OrderItem_getInfo infos) start
  = List.fold_left (fun total item => total + Aggregate.getSubtotal item)
      infos start.
Proof.
  revert start. induction infos as [|item infos IH]; intro start; simpl;
    [reflexivity | apply IH].
Qed.

Section OrderBuilding.
Import Aggregate.

Lemma finalizeOrder_cases (order : Order) :
  finalizeOrder integratedService order =
    match fst (validate OrderValidator order) with
    | Normal _ =>
        (Normal
           (mkFinalized (getInfo (set_status completed order))
              (calculateDiscount DiscountCalculator order) (getTotal order)
              (getTotal order - calculateDiscount DiscountCalculator order)),
         set_status completed order)
    | Throw message => (Throw message, order)
    end.
Proof.
  unfold finalizeOrder, integratedService, bind. simpl validator.
  rewrite Aggregate_validator_outcome.
  destruct (fst (validate OrderValidator order)); reflexivity.
Qed.

Lemma validator_ignores_status (order : Order) (s : Status) :
  fst (validate OrderValidator (set_status s order))
  = fst (validate OrderValidator order).
Proof.
  rewrite !Aggregate_validator_cases. simpl.
  destruct (negb (truthy (id order)) || negb (truthy (customerName order))),
    (Nat.eqb (List.length (items order)) 0); reflexivity.
Qed.

(** X10. [addItem] puts the new item after the items the order has, leaves
    the identifier, the customer name and the status alone, and raises the
    total by the subtotal of the new item: the total after is the total
    before plus price times quantity. *)
Theorem addItem_getTotal :
  forall (product : Product) (quantity : float) (order : Order),
  getTotal (addItem product quantity order)
  = getTotal order + price product * quantity
  /\ items (addItem product quantity order)
     = (items order ++ [mkOrderItem product quantity])%list
  /\ id (addItem product quantity order) = id order
  /\ customerName (addItem product quantity order) = customerName order
  /\ status (addItem product quantity order) = status order.
Proof.
  intros product0 quantity0 order. unfold getTotal, addItem. simpl.
  rewrite List.fold_left_app. repeat split.
Qed.

(** X11. Finalizing is idempotent: a second [finalizeOrder] on the order the
    first one left behind succeeds with the same result and leaves the same
    order. *)
Theorem finalizeOrder_idempotent :
  forall (order order' : Order) (result : Finalized),
  finalizeOrder integratedService order = (Normal result, order') ->
  finalizeOrder integratedService order' = (Normal result, order').
Proof.
  intros order order' result. rewrite !finalizeOrder_cases.
  destruct (fst (validate OrderValidator order)) as [b|m] eqn:E;
    [|discriminate].
  intros [= <- <-]. rewrite validator_ignores_status, E. reflexivity.
Qed.

Lemma finalizeOrder_idempotent_witness :
  exists result order',
    finalizeOrder integratedService order1 = (Normal result, order')
    /\ finalizeOrder integratedService order' = (Normal result, order').
Proof.
  eexists. eexists. split; [reflexivity|].
  apply (finalizeOrder_idempotent order1). reflexivity.
Defined.

(** X12. The snapshot [getInfo] builds is consistent: it lists one entry per
    item, in order; each entry carries the product, the quantity and
    subtotal = price x quantity; and the total of the snapshot is the
    left-to-right sum of the subtotals it lists. *)
Theorem getInfo_consistent : forall order : Order,
  let info := getInfo order in
  List.map info_product (info_items info) = List.map product (items order)
  /\ List.map info_quantity (info_items info)
     = List.map quantity (items order)
  /\ List.Forall
       (fun entry =>
          info_subtotal entry = price (info_product entry) * info_quantity entry)
       (info_items info)
  /\ info_total info
     = List.fold_left (fun total entry => total + info_subtotal entry)
         (info_items info) 0
  /\ info_id info = id order /\ info_customer info = customerName order
  /\ info_status info = status order.
Proof.
  intros order info. unfold info, getInfo. simpl.
  split; [|split; [|split; [|split]]].
  - rewrite List.map_map. apply List.map_ext.
    intros [[i n p] q]. reflexivity.
  - rewrite List.map_map. reflexivity.
  - apply List.Forall_forall. intros entry Hentry.
    apply List.in_map_iff in Hentry.
    destruct Hentry as ([[i n p] q] & <- & _). reflexivity.
  - rewrite fold_subtotals. reflexivity.
  - repeat split.
Qed.

(** X13. [finalizeOrder] raises exactly when the identifier or the customer
    name is empty or absent or the order has no item; it then leaves the
    order, status included, as it was.  No total, quantity or price makes it
    raise. *)
Theorem finalizeOrder_raises_iff : forall order : Order,
  (raises (finalizeOrder integratedService order) <->
     empty_or_absent (id order) \/ empty_or_absent (customerName order)
     \/ items order = [])
  /\ (raises (finalizeOrder integratedService order) ->
      snd (finalizeOrder integratedService order) = order)
  /\ (~ raises (finalizeOrder integratedService order) ->
      status (snd (finalizeOrder integratedService order)) = completed).
Proof.
  intro order. unfold raises.
  rewrite finalizeOrder_cases, Aggregate_validator_cases,
    <- !truthy_empty_or_absent.
  destruct (truthy (id order)), (truthy (customerName order)),
    (items order) as [|first rest]; simpl;
    repeat split; intros;
    try solve [ reflexivity | discriminate | eauto
              | intuition discriminate
              | match goal with H : exists _, _ |- _ =>
                  destruct H; discriminate end
              | match goal with H : ~ _ |- _ =>
                  exfalso; apply H; eauto end ].
Qed.

(** X14. Once an item has been added to an order with a non-empty identifier
    and customer name, [finalizeOrder] succeeds whatever the quantity and the
    price are, zero and negative values included, and completes the order. *)
Theorem finalizeOrder_after_addItem :
  forall (product : Product) (quantity : float) (order : Order),
  non_empty (id order) -> non_empty (customerName order) ->
  exists result,
    finalizeOrder integratedService (addItem product quantity order)
    = (Normal result, set_status completed (addItem product quantity order))
    /\ result_total result = getTotal order + price product * quantity
    /\ result_finalTotal result = result_total result - result_discount result.
Proof.
  intros product0 quantity0 order Hid Hname.
  assert (Haccepted : fst (validate OrderValidator
                             (addItem product0 quantity0 order))
                      = Normal true).
  { apply Aggregate_validator_accepts. simpl. repeat split; try assumption.
    destruct (items order) as [|first rest]; simpl; eauto. }
  rewrite finalizeOrder_cases, Haccepted. eexists. split; [reflexivity|].
  simpl. split; [|reflexivity].
  unfold getTotal, addItem. simpl. now rewrite List.fold_left_app.
Qed.

Lemma finalizeOrder_after_addItem_witness :
  exists result,
    finalizeOrder integratedService
      (addItem mouse (-2) (new_Order (Str "ORD-007") (Str "Ana Lima")))
    = (Normal result,
       set_status completed
         (addItem mouse (-2) (new_Order (Str "ORD-007") (Str "Ana Lima"))))
    /\ result_total result
       = getTotal (new_Order (Str "ORD-007") (Str "Ana Lima"))
         + price mouse * (-2)
    /\ result_finalTotal result = result_total result - result_discount result.
Proof.
  apply (finalizeOrder_after_addItem mouse (-2)
           (new_Order (Str "ORD-007") (Str "Ana Lima"))).
  - do 2 eexists; reflexivity.
  - do 2 eexists; reflexivity.
Defined.

End OrderBuilding.

(** ** A total that is not a number *)

Lemma nan_comparisons (t bound : float) :
  is_nan t = true -> (t <=? bound) = false /\ (bound <? t) = false.
Proof.
  rewrite is_nan_spec, FloatAxioms.leb_spec, FloatAxioms.ltb_spec.
  intros ->. split; [reflexivity|].
  destruct (Prim2SF bound) as [[]|[]| |s m e]; reflexivity.
Qed.

Section NotANumber.
Import Simple.

(** X15. Both validators of the simple variant let a total through that is
    not a number (an omitted total compares the same way): [NaN <= 0] and
    [NaN > 10000] are
    both false, so an order with a non-empty identifier and customer name
    and at least one item is accepted, and [createOrder] stores it. *)
Theorem validators_accept_nan_total :
  forall (service : OrderService) (id customerName : field)
         (items : ItemsValue) (total : float) (s : Store),
  source_validator (validator service) ->
  source_repository (repository service) ->
  non_empty id -> non_empty customerName -> at_least_one_item items ->
  is_nan total = true ->
  accepted_by (validator service) (new_Order id customerName items total)
  /\ fst (createOrder service id customerName items total s)
     = Normal (new_Order id customerName items total).
Proof.
  intros service id0 name0 items0 total0 s Hv Hrepo Hid Hname Hitems Hnan.
  destruct (nan_comparisons total0 0 Hnan) as (Hle & _).
  destruct (nan_comparisons total0 10000 Hnan) as (_ & Hgt).
  set (order := new_Order id0 name0 items0 total0).
  assert (Hbase : validate OrderValidator order = (Normal true, order)).
  { rewrite OrderValidator_outcome. f_equal. apply OrderValidator_accepts.
    simpl. rewrite !truthy_non_empty, no_items_at_least_one. auto. }
  assert (Haccepted : validate (validator service) order
                      = (Normal true, order)).
  { destruct Hv as [-> | ->]; [exact Hbase|].
    rewrite StrictOrderValidator_cases, Hbase. simpl. now rewrite Hgt. }
  split.
  - unfold accepted_by. fold order. now rewrite Haccepted.
  - unfold createOrder. fold order. rewrite Haccepted.
    destruct (source_repository_save (repository service) order s Hrepo)
      as (Hfst & _).
    destruct (save (repository service) order s) as [saved s'].
    simpl in *. now subst saved.
Qed.

Lemma validators_accept_nan_total_witness :
  accepted_by (validator extendedService)
    (new_Order (Str "ORD-006") (Str "Ana Lima") (ArrayOf ["Produto E"]) nan)
  /\ fst (createOrder extendedService (Str "ORD-006") (Str "Ana Lima")
            (ArrayOf ["Produto E"]) nan store_with_ORD_001)
     = Normal
         (new_Order (Str "ORD-006") (Str "Ana Lima")
            (ArrayOf ["Produto E"]) nan).
Proof.
  apply (validators_accept_nan_total extendedService (Str "ORD-006")
           (Str "Ana Lima") (ArrayOf ["Produto E"]) nan store_with_ORD_001).
  - right. reflexivity.
  - right. reflexivity.
  - do 2 eexists; reflexivity.
  - do 2 eexists; reflexivity.
  - do 2 eexists; reflexivity.
  - reflexivity.
Defined.

End NotANumber.
